(** * The branch ensurer of src/action/git.js

    [ensureUpdateBranchExists] guarantees that a branch exists on the
    hosting service, creating it from a base branch when it is absent.
    The module talks to the service through three calls of an octokit
    client (getRef, createRef, deleteRef) and waits with setTimeout.

    The embedding is shallow.  An asynchronous function becomes a function
    from the state of the outside world to a completion (a returned value
    or a thrown value), the next state of the world and the list of calls
    it made, in order, each with the way it settled.  The client is an
    arbitrary transition system over the world, so a statement quantified
    over clients covers every sequence of replies a real service can give.

    core.info and core.warning only write to the log of the action; they
    take no part in the control flow and are left out. *)

From Stdlib Require Import ZArith List String Bool Lia.
Import ListNotations.

Local Open Scope string_scope.
Local Open Scope list_scope.
Local Open Scope Z_scope.

(** ** Values exchanged with the client *)

(** The object a call of the client rejects with.  Only [status] is
    inspected by the module; it is absent on errors that are not HTTP
    answers. *)
Record RequestError : Type := {
  status : option Z;
  message : string
}.

(** [response.data] of getRef: the hash sits under [object.sha], or
    directly under [sha]. *)
Record RefData : Type := {
  object_sha : option string;
  sha : option string
}.

(** How an awaited promise settles. *)
Inductive Settled (A : Type) : Type :=
| Fulfilled (value : A)
| Rejected (error : RequestError).
Arguments Fulfilled {A} value.
Arguments Rejected {A} error.

(** What a [throw] carries: either the very object a client call rejected
    with, passed on untouched, or an object built here by [new Error]. *)
Inductive Thrown : Type :=
| Rethrown (error : RequestError)
| NewError (msg : string).

Inductive Completion (A : Type) : Type :=
| Returned (value : A)
| Threw (thrown : Thrown).
Arguments Returned {A} value.
Arguments Threw {A} thrown.

(** ** Calls and traces *)

Inductive Call : Type :=
| GetRef (owner repo ref : string)
| CreateRef (owner repo ref : string) (sha : option string)
| DeleteRef (owner repo ref : string)
| SetTimeout (delay : Z).

(** A call together with the error it rejected with, if it did. *)
Definition Event : Type := (Call * option RequestError)%type.

Definition failure {A : Type} (s : Settled A) : option RequestError :=
  match s with
  | Fulfilled _ => None
  | Rejected e => Some e
  end.

Definition is_getRef (ev : Event) : bool :=
  match fst ev with GetRef _ _ _ => true | _ => false end.
Definition is_createRef (ev : Event) : bool :=
  match fst ev with CreateRef _ _ _ _ => true | _ => false end.
Definition is_deleteRef (ev : Event) : bool :=
  match fst ev with DeleteRef _ _ _ => true | _ => false end.
Definition is_setTimeout (ev : Event) : bool :=
  match fst ev with SetTimeout _ => true | _ => false end.

(** Number of events of a kind in a trace. *)
Definition count (kind : Event -> bool) (tr : list Event) : nat :=
  List.length (filter kind tr).

(** Milliseconds spent waiting along a trace. *)
Fixpoint total_delay (tr : list Event) : Z :=
  match tr with
  | [] => 0
  | (SetTimeout delay, _) :: tr' => delay + total_delay tr'
  | _ :: tr' => total_delay tr'
  end.

(** The delays of the waits of a trace, in order. *)
Fixpoint delays (tr : list Event) : list Z :=
  match tr with
  | [] => []
  | (SetTimeout delay, _) :: tr' => delay :: delays tr'
  | _ :: tr' => delays tr'
  end.

(** A property of traces that holds of the empty trace and of the
    concatenation of two traces that have it. *)
Definition compositional (P : list Event -> Prop) : Prop :=
  P [] /\ forall tr1 tr2, P tr1 -> P tr2 -> P (tr1 ++ tr2).

(** ** Constants of the module *)

Definition MAX_CREATION_ATTEMPTS : Z := 2.
Definition MAX_VERIFICATION_ATTEMPTS : Z := 7.
Definition VERIFICATION_BASE_DELAY_MS : Z := 500.

Definition BRANCH_REF_PREFIX : string := "refs/heads/".
Definition SHORT_REF_PREFIX : string := "heads/".

(** A JavaScript string (or undefined) used as a condition. *)
Definition truthy (s : option string) : bool :=
  match s with
  | Some s => negb (s =? "")%string
  | None => false
  end.

(** [response.data.object?.sha || response.data.sha] *)
Definition resolveRefSha (data : RefData) : option string :=
  if truthy (object_sha data) then object_sha data else sha data.

(** [error.status === code] *)
Definition status_is (error : RequestError) (code : Z) : bool :=
  match status error with
  | Some s => s =? code
  | None => false
  end.

Definition not_accessible_message (branchName : string) : string :=
  "Branch " ++ branchName ++ " was created but is not accessible after multiple retries".

Definition unable_to_create_message (branchName : string) : string :=
  "Unable to create branch " ++ branchName ++ " after cleaning up conflicting references.".

Definition missing_client_message : string :=
  "ensureUpdateBranchExists requires an authenticated octokit client.".

(** [needle] occurs in [text], as a test with [toMatch(/needle/)] asks. *)
Definition includes (needle text : string) : Prop :=
  exists before after, text = (before ++ needle ++ after)%string.

(** ** The client and the asynchronous computations *)

Section Ensurer.

(** State of everything outside the module: the remote repository, the
    other actors writing to it, the clock. *)
Context {W : Type}.

(** [octokit.rest.git]: each call reads and may change the world. *)
Record Octokit : Type := {
  getRef : string -> string -> string -> W -> Settled RefData * W;
  createRef : string -> string -> string -> option string -> W -> Settled unit * W;
  deleteRef : string -> string -> string -> W -> Settled unit * W
}.

(** What happens to the world while the module waits [delay] ms. *)
Variable elapse : Z -> W -> W.

(** [github.context.repo] *)
Variables owner repo : string.

Record Run (A : Type) : Type := {
  completion : Completion A;
  world : W;
  trace : list Event
}.
Arguments completion {A} r.
Arguments world {A} r.
Arguments trace {A} r.

Definition Async (A : Type) : Type := W -> Run A.

Definition ret {A : Type} (a : A) : Async A :=
  fun w => {| completion := Returned a; world := w; trace := [] |}.

Definition throw {A : Type} (t : Thrown) : Async A :=
  fun w => {| completion := Threw t; world := w; trace := [] |}.

Definition bind {A B : Type} (m : Async A) (k : A -> Async B) : Async B :=
  fun w =>
    let r := m w in
    match completion r with
    | Returned a =>
        let r' := k a (world r) in
        {| completion := completion r';
           world := world r';
           trace := trace r ++ trace r' |}
    | Threw t =>
        {| completion := Threw t; world := world r; trace := trace r |}
    end.

(** The run [r], reached after the calls of [tr]. *)
Definition preceded {A : Type} (tr : list Event) (r : Run A) : Run A :=
  {| completion := completion r; world := world r; trace := tr ++ trace r |}.

Notation "x <- m ;; k" := (bind m (fun x => k))
  (at level 100, m at next level, right associativity).
Notation "m ;;; k" := (bind m (fun _ => k))
  (at level 100, right associativity).

(** Issue a call and hand back the way it settled: the [await] of a
    [try] block, whose rejection goes to the [catch] clause. *)
Definition request {A : Type} (c : Call) (op : W -> Settled A * W)
  : Async (Settled A) :=
  fun w =>
    let (s, w') := op w in
    {| completion := Returned s; world := w'; trace := [(c, failure s)] |}.

(** An [await] outside of any [try]: a rejection is thrown on as it is. *)
Definition await {A : Type} (c : Call) (op : W -> Settled A * W) : Async A :=
  s <- request c op ;;
  match s with
  | Fulfilled a => ret a
  | Rejected error => throw (Rethrown error)
  end.

(** [await new Promise((resolve) => setTimeout(resolve, delay))] *)
Definition setTimeout (delay : Z) : Async unit :=
  fun w =>
    {| completion := Returned tt;
       world := elapse delay w;
       trace := [(SetTimeout delay, None)] |}.

(** One pass through the body of a [for] loop either falls through to
    the next iteration or leaves the function with [return]. *)
Inductive Step (A : Type) : Type :=
| Next
| Return (value : A).
Arguments Next {A}.
Arguments Return {A} value.

(** [for (let attempt = a; attempt < bound; attempt++) body; after]
    with [remaining = bound - a] iterations still to run. *)
Fixpoint for_attempts {A : Type} (remaining : nat) (attempt : Z)
    (body : Z -> Async (Step A)) (after : Async A) : Async A :=
  match remaining with
  | O => after
  | S remaining' =>
      s <- body attempt ;;
      match s with
      | Return a => ret a
      | Next => for_attempts remaining' (attempt + 1) body after
      end
  end.

(** ** createBranchWithCleanup (git.js, lines 102-176) *)

Section WithClient.

Variable octokit : Octokit.
Variables branchName baseBranch : string.

Definition branchRef : string := SHORT_REF_PREFIX ++ branchName.
Definition baseRef : string := SHORT_REF_PREFIX ++ baseBranch.
Definition fullBranchRef : string := BRANCH_REF_PREFIX ++ branchName.

Definition call_getRef (ref : string) : Async (Settled RefData) :=
  request (GetRef owner repo ref) (getRef octokit owner repo ref).

Definition call_createRef (ref : string) (baseSha : option string)
  : Async (Settled unit) :=
  request (CreateRef owner repo ref baseSha)
          (createRef octokit owner repo ref baseSha).

Definition call_deleteRef (ref : string) : Async (Settled unit) :=
  request (DeleteRef owner repo ref) (deleteRef octokit owner repo ref).

(** Body of the loop, lines 112-170. *)
Definition creation_attempt (baseSha : option string) (attempt : Z)
  : Async (Step unit) :=
  created <- call_createRef fullBranchRef baseSha ;;
  match created with
  | Fulfilled _ => ret (Return tt)
  | Rejected error =>
      if negb (status_is error 422) then throw (Rethrown error)
      else
        existing <- call_getRef branchRef ;;
        match existing with
        | Fulfilled _ => ret (Return tt)
        | Rejected getError =>
            if negb (status_is getError 404) then throw (Rethrown getError)
            else
              deleted <- call_deleteRef fullBranchRef ;;
              match deleted with
              | Fulfilled _ => ret Next
              | Rejected deleteError =>
                  if status_is deleteError 404 || status_is deleteError 422
                  then ret Next
                  else throw (Rethrown deleteError)
              end
        end
  end.

Definition createBranchWithCleanup (baseSha : option string) : Async unit :=
  for_attempts (Z.to_nat MAX_CREATION_ATTEMPTS) 0
    (creation_attempt baseSha)
    (throw (NewError (unable_to_create_message branchName))).

(** ** The verification loop (git.js, lines 71-99) *)

(** [VERIFICATION_BASE_DELAY_MS * Math.pow(2, attempt)]; the loop counter
    stays between 0 and 6, where the power is an exact integer. *)
Definition verification_delay (attempt : Z) : Z :=
  VERIFICATION_BASE_DELAY_MS * 2 ^ attempt.

(** Body of the loop, lines 72-96. *)
Definition verification_attempt (attempt : Z) : Async (Step bool) :=
  branchRefData <- call_getRef branchRef ;;
  match branchRefData with
  | Fulfilled _ => ret (Return true)
  | Rejected error =>
      if status_is error 404 && (attempt <? MAX_VERIFICATION_ATTEMPTS - 1)
      then
        setTimeout (verification_delay attempt) ;;;
        ret Next
      else
        throw (NewError (not_accessible_message branchName))
  end.

Definition verification_from (remaining : nat) (attempt : Z) : Async bool :=
  for_attempts remaining attempt verification_attempt (ret true).

Definition verification : Async bool :=
  verification_from (Z.to_nat MAX_VERIFICATION_ATTEMPTS) 0.

(** Lines 51-99: what follows a first read that reported 404.  The hash
    of the base is read on line 57 with the expression of [resolveRefSha]. *)
Definition create_and_verify : Async bool :=
  base <- await (GetRef owner repo baseRef) (getRef octokit owner repo baseRef) ;;
  let baseSha := resolveRefSha base in
  createBranchWithCleanup baseSha ;;;
  verification.

(** Lines 31-99, with a client at hand. *)
Definition ensure_with_client : Async bool :=
  existing <- call_getRef branchRef ;;
  match existing with
  | Fulfilled _ => ret true
  | Rejected error =>
      if negb (status_is error 404) then throw (Rethrown error)
      else create_and_verify
  end.

End WithClient.

(** ** ensureUpdateBranchExists (git.js, lines 21-100) *)
Definition ensureUpdateBranchExists (octokit : option Octokit)
    (branchName baseBranch : string) : Async bool :=
  match octokit with
  | None => throw (NewError missing_client_message)
  | Some octokit => ensure_with_client octokit branchName baseBranch
  end.

End Ensurer.

Arguments completion {W A} r.
Arguments world {W A} r.
Arguments trace {W A} r.
Arguments preceded {W A} tr r.
Arguments Next {A}.
Arguments Return {A} value.

(** ** Hypotheses on the replies of the client *)

Section Replies.

Context {W : Type}.
Variable elapse : Z -> W -> W.
Variables owner repo : string.
Variable octokit : Octokit (W := W).
Variable branchName : string.

(** The reads made by [n] verification attempts in a row, the first one
    numbered [attempt] and starting in world [w], when every one of them
    reports 404 and is followed by its wait: the errors the reads rejected
    with and the world in which the next attempt starts.  [None] when one
    of these reads does not report 404. *)
Fixpoint missed_reads (n : nat) (attempt : Z) (w : W)
  : option (list RequestError * W) :=
  match n with
  | O => Some ([], w)
  | S n' =>
      match getRef octokit owner repo (branchRef branchName) w with
      | (Rejected e, w1) =>
          if status_is e 404 then
            match missed_reads n' (attempt + 1)
                    (elapse (verification_delay attempt) w1) with
            | Some (es, w2) => Some (e :: es, w2)
            | None => None
            end
          else None
      | (Fulfilled _, _) => None
      end
  end.

(** The part of a trace written by verification attempts that all missed:
    each read is followed by its wait. *)
Fixpoint backoff_schedule (attempt : Z) (errors : list RequestError)
  : list Event :=
  match errors with
  | [] => []
  | e :: errors' =>
      (GetRef owner repo (branchRef branchName), Some e)
        :: (SetTimeout (VERIFICATION_BASE_DELAY_MS * 2 ^ attempt), None)
        :: backoff_schedule (attempt + 1) errors'
  end.

(** A create call on the branch that failed with 422, then a read of the
    branch that failed with 404. *)
Definition stale_conflict (c g : Event) : Prop :=
  (exists baseSha e,
      c = (CreateRef owner repo (fullBranchRef branchName) baseSha, Some e)
      /\ status e = Some 422)
  /\ (exists e,
      g = (GetRef owner repo (branchRef branchName), Some e)
      /\ status e = Some 404).

(** Every delete call of the trace comes right after a stale conflict. *)
Definition deletes_follow_stale_conflict (tr : list Event) : Prop :=
  forall before d after,
    tr = before ++ d :: after ->
    is_deleteRef d = true ->
    exists before' c g, before = before' ++ [c; g] /\ stale_conflict c g.

(** The calls the module may make for this branch and base. *)
Definition expected_call (baseBranch : string) (ev : Event) : Prop :=
  match fst ev with
  | GetRef o r ref =>
      o = owner /\ r = repo
      /\ (ref = branchRef branchName \/ ref = baseRef baseBranch)
  | CreateRef o r ref _ =>
      o = owner /\ r = repo /\ ref = fullBranchRef branchName
  | DeleteRef o r ref =>
      o = owner /\ r = repo /\ ref = fullBranchRef branchName
  | SetTimeout _ => True
  end.

(** A delete call that lets the creation loop go on: it succeeded, or
    failed with 404 or 422. *)
Definition tolerated (deleted : Settled unit) : bool :=
  match deleted with
  | Fulfilled _ => true
  | Rejected deleteError =>
      status_is deleteError 404 || status_is deleteError 422
  end.

(** Once a read of the branch has succeeded, the next one succeeds too. *)
Definition branch_stays_readable : Prop :=
  forall w data w1,
    getRef octokit owner repo (branchRef branchName) w = (Fulfilled data, w1) ->
    exists data' w2,
      getRef octokit owner repo (branchRef branchName) w1 = (Fulfilled data', w2).

End Replies.

(** ** Further properties of traces and runs *)

(** Every event of the kind [trigger] comes right after an event that
    satisfies [cause]. *)
Definition follows (trigger : Event -> bool) (cause : Event -> Prop)
    (tr : list Event) : Prop :=
  forall before t after,
    tr = before ++ t :: after ->
    trigger t = true ->
    exists before' c, before = before' ++ [c] /\ cause c.

(** A read of the branch that reported 404. *)
Definition missed_read (owner repo branchName : string) (ev : Event) : Prop :=
  exists e,
    ev = (GetRef owner repo (branchRef branchName), Some e)
    /\ status e = Some 404.

(** Once the function has waited, it creates and deletes nothing more. *)
Definition no_mutation_after_wait (tr : list Event) : Prop :=
  forall before t after,
    tr = before ++ t :: after ->
    is_setTimeout t = true ->
    count is_createRef after = 0%nat /\ count is_deleteRef after = 0%nat.

(** A create call carries the hash [hash]; other events are not concerned. *)
Definition creates_carry (hash : option string) (ev : Event) : Prop :=
  match fst ev with
  | CreateRef _ _ _ baseSha => baseSha = hash
  | _ => True
  end.

(** A read, if the event is one, is a read of [ref]. *)
Definition reads_only (ref : string) (ev : Event) : Prop :=
  match fst ev with
  | GetRef _ _ read => read = ref
  | _ => True
  end.

(** The event is a read of [ref]. *)
Definition is_getRef_of (ref : string) (ev : Event) : bool :=
  match fst ev with
  | GetRef _ _ read => (read =? ref)%string
  | _ => false
  end.

(** The calls whose error the function throws on, with the statuses for
    which it does. *)
Definition rethrown_from (owner repo branchName baseBranch : string)
    (c : Call) (e : RequestError) : Prop :=
  (c = GetRef owner repo (branchRef branchName) /\ status_is e 404 = false)
  \/ c = GetRef owner repo (baseRef baseBranch)
  \/ (exists baseSha,
        c = CreateRef owner repo (fullBranchRef branchName) baseSha
        /\ status_is e 422 = false)
  \/ (c = DeleteRef owner repo (fullBranchRef branchName)
      /\ status_is e 404 = false /\ status_is e 422 = false).

(** What a run throws is accounted for: an error passed on is the error of
    the last call of the trace, a call allowed by [from]; a message built
    here is allowed by [built]. *)
Definition thrown_accounted {W A : Type}
    (from : Call -> RequestError -> Prop) (built : string -> Prop)
    (r : Run (W := W) A) : Prop :=
  match completion r with
  | Returned _ => True
  | Threw (Rethrown e) =>
      exists before c, trace r = before ++ [(c, Some e)] /\ from c e
  | Threw (NewError msg) => built msg
  end.

(** The delays of [n] waits in a row, the first one after attempt
    [attempt]. *)
Fixpoint doubling (n : nat) (attempt : Z) : list Z :=
  match n with
  | O => []
  | S n' => verification_delay attempt :: doubling n' (attempt + 1)
  end.

(** ** The client of the test suite *)

Module Mock.

(** A [vi.fn()]: replies queued with mockResolvedValueOnce and
    mockRejectedValueOnce are served first, in order, then the standing
    reply set with mockResolvedValue or mockRejectedValue. *)
Record Fn (A : Type) : Type := {
  once : list (Settled A);
  standing : Settled A
}.
Arguments once {A} f.
Arguments standing {A} f.

Definition invoke {A : Type} (f : Fn A) : Settled A * Fn A :=
  match once f with
  | [] => (standing f, f)
  | reply :: rest => (reply, {| once := rest; standing := standing f |})
  end.

Record State : Type := {
  getRef_fn : Fn RefData;
  createRef_fn : Fn unit;
  deleteRef_fn : Fn unit
}.

Definition octokitMock : Octokit (W := State) := {|
  getRef := fun _ _ _ w =>
    let (reply, f) := invoke (getRef_fn w) in
    (reply, {| getRef_fn := f;
               createRef_fn := createRef_fn w;
               deleteRef_fn := deleteRef_fn w |});
  createRef := fun _ _ _ _ w =>
    let (reply, f) := invoke (createRef_fn w) in
    (reply, {| getRef_fn := getRef_fn w;
               createRef_fn := f;
               deleteRef_fn := deleteRef_fn w |});
  deleteRef := fun _ _ _ w =>
    let (reply, f) := invoke (deleteRef_fn w) in
    (reply, {| getRef_fn := getRef_fn w;
               createRef_fn := createRef_fn w;
               deleteRef_fn := f |})
|}.

(** Fake timers: waiting changes nothing. *)
Definition elapse (delay : Z) (w : State) : State := w.

(** Modelled from the spec: tests/action/test-utils.js is not part of the
    sources; createNotFoundError builds the "missing" signal of getRef, an
    error whose status marker is 404. *)
Definition createNotFoundError : RequestError :=
  {| status := Some 404; message := "Not Found" |}.

Definition conflictError : RequestError :=
  {| status := Some 422; message := "Reference already exists" |}.

Definition serverError : RequestError :=
  {| status := Some 500; message := "Internal Server Error" |}.

Definition withSha (s : string) : Settled RefData :=
  Fulfilled {| object_sha := Some s; sha := None |}.

(** The state set up by beforeEach, with the replies queued by a test. *)
Definition mocks (gets : list (Settled RefData)) (creates : list (Settled unit))
  : State :=
  {| getRef_fn := {| once := gets; standing := withSha "existing-sha" |};
     createRef_fn := {| once := creates; standing := Fulfilled tt |};
     deleteRef_fn := {| once := []; standing := Fulfilled tt |} |}.

(** The same with a getRef that reports 404 once its queue is empty. *)
Definition mocks_missing (gets : list (Settled RefData))
    (creates : list (Settled unit)) : State :=
  {| getRef_fn := {| once := gets; standing := Rejected createNotFoundError |};
     createRef_fn := {| once := creates; standing := Fulfilled tt |};
     deleteRef_fn := {| once := []; standing := Fulfilled tt |} |}.

Definition run (w : State) : Run bool :=
  ensureUpdateBranchExists elapse "owner" "repo" (Some octokitMock)
    "test-branch" "main" w.

End Mock.

(** ** A repository that answers consistently *)

Module Store.

(** The refs of the repository, by fully qualified name, with the hash
    each points to.  Reads see every earlier write. *)
Definition State : Type := list (string * string).

Fixpoint lookup (ref : string) (refs : State) : option string :=
  match refs with
  | [] => None
  | (name, hash) :: rest =>
      if (name =? ref)%string then Some hash else lookup ref rest
  end.

Fixpoint remove (ref : string) (refs : State) : State :=
  match refs with
  | [] => []
  | (name, hash) :: rest =>
      if (name =? ref)%string then remove ref rest
      else (name, hash) :: remove ref rest
  end.

Definition notFound : RequestError :=
  {| status := Some 404; message := "Not Found" |}.

Definition unprocessable : RequestError :=
  {| status := Some 422; message := "Unprocessable Entity" |}.

Definition octokit : Octokit (W := State) := {|
  getRef := fun _ _ ref refs =>
    match lookup ("refs/" ++ ref) refs with
    | Some hash => (Fulfilled {| object_sha := Some hash; sha := None |}, refs)
    | None => (Rejected notFound, refs)
    end;
  createRef := fun _ _ ref hash refs =>
    match lookup ref refs, hash with
    | None, Some h => (Fulfilled tt, (ref, h) :: refs)
    | _, _ => (Rejected unprocessable, refs)
    end;
  deleteRef := fun _ _ ref refs =>
    match lookup ref refs with
    | Some _ => (Fulfilled tt, remove ref refs)
    | None => (Rejected unprocessable, refs)
    end
|}.

Definition elapse (delay : Z) (refs : State) : State := refs.

Definition run (refs : State) : Run bool :=
  ensureUpdateBranchExists elapse "owner" "repo" (Some octokit)
    "test-branch" "main" refs.

End Store.

(** ** The test suite, replayed *)

Example reuses_existing_branch :
  let r := Mock.run (Mock.mocks [] []) in
  completion r = Returned true
  /\ trace r = [(GetRef "owner" "repo" "heads/test-branch", None)].
Proof. vm_compute. auto. Qed.

Example creates_new_branch :
  let r := Mock.run
    (Mock.mocks [Rejected Mock.createNotFoundError; Mock.withSha "base-sha";
                 Mock.withSha "new-branch-sha"]
                [Fulfilled tt]) in
  completion r = Returned true
  /\ trace r =
       [(GetRef "owner" "repo" "heads/test-branch", Some Mock.createNotFoundError);
        (GetRef "owner" "repo" "heads/main", None);
        (CreateRef "owner" "repo" "refs/heads/test-branch" (Some "base-sha"), None);
        (GetRef "owner" "repo" "heads/test-branch", None)].
Proof. vm_compute. auto. Qed.

Example reuses_branch_after_422 :
  let r := Mock.run
    (Mock.mocks [Rejected Mock.createNotFoundError; Mock.withSha "base-sha";
                 Mock.withSha "existing-sha"; Mock.withSha "existing-sha"]
                [Rejected Mock.conflictError]) in
  completion r = Returned true
  /\ count is_createRef (trace r) = 1%nat
  /\ count is_deleteRef (trace r) = 0%nat.
Proof. vm_compute. auto. Qed.

Example deletes_stale_reference_and_retries :
  let r := Mock.run
    (Mock.mocks [Rejected Mock.createNotFoundError; Mock.withSha "base-sha";
                 Rejected Mock.createNotFoundError; Mock.withSha "new-branch-sha"]
                [Rejected Mock.conflictError; Fulfilled tt]) in
  completion r = Returned true
  /\ In (DeleteRef "owner" "repo" "refs/heads/test-branch", None) (trace r)
  /\ count is_createRef (trace r) = 2%nat.
Proof. vm_compute. intuition. Qed.

Example throws_when_never_accessible :
  let r := Mock.run
    (Mock.mocks_missing [Rejected Mock.createNotFoundError; Mock.withSha "base-sha"]
                        []) in
  completion r =
    Threw (NewError
      "Branch test-branch was created but is not accessible after multiple retries")
  /\ delays (trace r) = [500; 1000; 2000; 4000; 8000; 16000].
Proof. vm_compute. auto. Qed.

(** ** Traces *)

#[local] Arguments Z.mul : simpl never.
#[local] Arguments Z.pow : simpl never.
#[local] Arguments Z.add : simpl never.
#[local] Arguments Z.sub : simpl never.
#[local] Arguments Z.ltb : simpl never.

Lemma count_nil (kind : Event -> bool) : count kind [] = 0%nat.
Proof. reflexivity. Qed.

Lemma count_app (kind : Event -> bool) (tr1 tr2 : list Event) :
  count kind (tr1 ++ tr2) = (count kind tr1 + count kind tr2)%nat.
Proof. unfold count. now rewrite filter_app, length_app. Qed.

Lemma total_delay_app (tr1 tr2 : list Event) :
  total_delay (tr1 ++ tr2) = total_delay tr1 + total_delay tr2.
Proof.
  induction tr1 as [|[c o] tr1 IH]; simpl; [reflexivity|].
  destruct c; rewrite IH; lia.
Qed.

Lemma delays_app (tr1 tr2 : list Event) :
  delays (tr1 ++ tr2) = delays tr1 ++ delays tr2.
Proof.
  induction tr1 as [|[c o] tr1 IH]; simpl; [reflexivity|].
  destruct c; rewrite IH; reflexivity.
Qed.

Lemma delays_no_setTimeout (tr : list Event) :
  count is_setTimeout tr = 0%nat -> delays tr = [].
Proof.
  induction tr as [|[c o] tr IH]; [reflexivity|].
  destruct c; unfold count in *; simpl; intros H; try discriminate; auto.
Qed.

Lemma total_delay_no_setTimeout (tr : list Event) :
  count is_setTimeout tr = 0%nat -> total_delay tr = 0.
Proof.
  induction tr as [|[c o] tr IH]; [reflexivity|].
  destruct c; unfold count in *; simpl; intros H; try discriminate; auto.
Qed.

Lemma append_assoc (s1 s2 s3 : string) :
  ((s1 ++ s2) ++ s3 = s1 ++ (s2 ++ s3))%string.
Proof. induction s1 as [|c s1 IH]; simpl; [reflexivity | now rewrite IH]. Qed.

Lemma status_is_true (e : RequestError) (code : Z) :
  status_is e code = true <-> status e = Some code.
Proof.
  unfold status_is. destruct (status e) as [s|].
  - rewrite Z.eqb_eq. split; congruence.
  - split; discriminate.
Qed.

Lemma compositional_Forall (P : Event -> Prop) :
  (fun tr => Forall P tr) [] /\
  forall tr1 tr2, Forall P tr1 -> Forall P tr2 -> Forall P (tr1 ++ tr2).
Proof.
  split; [constructor|]. intros tr1 tr2 H1 H2. apply Forall_app. now split.
Qed.

(** *** Deletes and the stale conflicts before them *)

Lemma deletes_follow_nil (owner repo branchName : string) :
  deletes_follow_stale_conflict owner repo branchName [].
Proof. intros [|x before] d after H; discriminate. Qed.

Lemma deletes_follow_app (owner repo branchName : string) (tr1 tr2 : list Event) :
  deletes_follow_stale_conflict owner repo branchName tr1 ->
  deletes_follow_stale_conflict owner repo branchName tr2 ->
  deletes_follow_stale_conflict owner repo branchName (tr1 ++ tr2).
Proof.
  intros H1 H2 before d after Heq Hd.
  apply app_eq_app in Heq. destruct Heq as [l [[Htr1 Hrest] | [Hbefore Htr2]]].
  - destruct l as [|x l].
    + simpl in Hrest. destruct (H2 [] d after (eq_sym Hrest) Hd)
        as (before' & c & g & Hnil & _).
      destruct before'; discriminate.
    + injection Hrest as <- _. exact (H1 before d l Htr1 Hd).
  - destruct (H2 l d after Htr2 Hd) as (before' & c & g & -> & Hcg).
    exists (tr1 ++ before'), c, g. split; [|exact Hcg].
    now rewrite Hbefore, app_assoc.
Qed.

Lemma deletes_follow_no_delete (owner repo branchName : string) (tr : list Event) :
  count is_deleteRef tr = 0%nat ->
  deletes_follow_stale_conflict owner repo branchName tr.
Proof.
  intros Hc before d after -> Hd. exfalso.
  rewrite count_app in Hc. unfold count in Hc. simpl in Hc.
  rewrite Hd in Hc. simpl in Hc. lia.
Qed.

Lemma deletes_follow_stale (owner repo branchName : string) (c g d : Event) :
  stale_conflict owner repo branchName c g ->
  deletes_follow_stale_conflict owner repo branchName [c; g; d].
Proof.
  intros Hcg before d' after Heq Hd.
  pose proof Hcg as [(baseSha & e & Hc & _) [e' [Hg _]]].
  destruct before as [|x1 [|x2 [|x3 before]]]; simpl in Heq.
  - injection Heq as Hx _. subst. discriminate.
  - injection Heq as _ Hx _. subst. discriminate.
  - injection Heq as <- <- _ _. now exists [], c, g.
  - injection Heq as _ _ _ Habs. destruct before; discriminate.
Qed.

Section Properties.

Context {W : Type}.
Variable elapse : Z -> W -> W.
Variables owner repo : string.

(** *** The sequencing of computations *)

Lemma trace_bind {A B : Type} (m : @Async W A) (k : A -> @Async W B) (w : W) :
  trace (bind m k w) =
  trace (m w) ++
  match completion (m w) with
  | Returned a => trace (k a (world (m w)))
  | Threw _ => []
  end.
Proof.
  unfold bind. destruct (completion (m w)); simpl; [reflexivity|].
  now rewrite app_nil_r.
Qed.

Lemma completion_bind {A B : Type} (m : @Async W A) (k : A -> @Async W B) (w : W) :
  completion (bind m k w) =
  match completion (m w) with
  | Returned a => completion (k a (world (m w)))
  | Threw t => Threw t
  end.
Proof. unfold bind. now destruct (completion (m w)). Qed.

Lemma world_bind {A B : Type} (m : @Async W A) (k : A -> @Async W B) (w : W) :
  world (bind m k w) =
  match completion (m w) with
  | Returned a => world (k a (world (m w)))
  | Threw t => world (m w)
  end.
Proof. unfold bind. now destruct (completion (m w)). Qed.

Lemma bind_compositional {A B : Type} (P : list Event -> Prop)
    (m : @Async W A) (k : A -> @Async W B) (w : W) :
  compositional P ->
  P (trace (m w)) ->
  (forall a w', P (trace (k a w'))) ->
  P (trace (bind m k w)).
Proof.
  intros [Hnil Happ] Hm Hk. rewrite trace_bind. apply Happ; [exact Hm|].
  destruct (completion (m w)); [apply Hk | exact Hnil].
Qed.

Lemma for_attempts_compositional {A : Type} (P : list Event -> Prop)
    (body : Z -> @Async W (Step A)) (after : @Async W A) :
  compositional P ->
  (forall attempt w, P (trace (body attempt w))) ->
  (forall w, P (trace (after w))) ->
  forall remaining attempt w,
    P (trace (for_attempts remaining attempt body after w)).
Proof.
  intros HP Hbody Hafter remaining.
  induction remaining as [|remaining IH]; intros attempt w; simpl.
  - apply Hafter.
  - apply bind_compositional; [exact HP | apply Hbody |].
    intros [|a] w'; [apply IH | apply HP].
Qed.

Lemma bind_count {A B : Type} (kind : Event -> bool)
    (m : @Async W A) (k : A -> @Async W B) (w : W) (c1 c2 : nat) :
  (count kind (trace (m w)) <= c1)%nat ->
  (forall a w', (count kind (trace (k a w')) <= c2)%nat) ->
  (count kind (trace (bind m k w)) <= c1 + c2)%nat.
Proof.
  intros Hm Hk. rewrite trace_bind, count_app.
  destruct (completion (m w)) as [a|t].
  - specialize (Hk a (world (m w))). lia.
  - rewrite count_nil. lia.
Qed.

(** A loop makes at most as many calls of a kind as its iterations do
    together, plus those of the code after it. *)
Lemma for_attempts_count {A : Type} (kind : Event -> bool)
    (body : Z -> @Async W (Step A)) (after : @Async W A) (c d : nat) :
  (forall attempt w, (count kind (trace (body attempt w)) <= c)%nat) ->
  (forall w, (count kind (trace (after w)) <= d)%nat) ->
  forall remaining attempt w,
    (count kind (trace (for_attempts remaining attempt body after w))
     <= remaining * c + d)%nat.
Proof.
  intros Hbody Hafter remaining.
  induction remaining as [|remaining IH]; intros attempt w; simpl.
  - apply Hafter.
  - replace (c + remaining * c + d)%nat with (c + (remaining * c + d))%nat by lia.
    apply bind_count; [apply Hbody|].
    intros [|a] w'; [apply IH|]. rewrite count_nil. lia.
Qed.

(** *** One attempt at creating the branch *)

Variable octokit : Octokit (W := W).
Variables branchName baseBranch : string.

Ltac run_step :=
  match goal with
  | |- context [match ?op with (_, _) => _ end] =>
      destruct op as [[?|?] ?] eqn:?
  | |- context [if ?b then _ else _] => destruct b eqn:?
  end.

Ltac run_cases :=
  unfold creation_attempt, verification_attempt, call_createRef, call_getRef,
    call_deleteRef, await, setTimeout, request, bind, ret, throw;
  simpl; repeat (run_step; simpl).

Lemma creation_attempt_createRef (baseSha : option string) (attempt : Z) (w : W) :
  count is_createRef
    (trace (creation_attempt owner repo octokit branchName baseSha attempt w))
  = 1%nat.
Proof. run_cases; reflexivity. Qed.

Lemma creation_attempt_deleteRef (baseSha : option string) (attempt : Z) (w : W) :
  (count is_deleteRef
     (trace (creation_attempt owner repo octokit branchName baseSha attempt w))
   <= 1)%nat.
Proof. run_cases; unfold count; simpl; lia. Qed.

Lemma creation_attempt_getRef (baseSha : option string) (attempt : Z) (w : W) :
  (count is_getRef
     (trace (creation_attempt owner repo octokit branchName baseSha attempt w))
   <= 1)%nat.
Proof. run_cases; unfold count; simpl; lia. Qed.

Lemma creation_attempt_setTimeout (baseSha : option string) (attempt : Z) (w : W) :
  count is_setTimeout
    (trace (creation_attempt owner repo octokit branchName baseSha attempt w))
  = 0%nat.
Proof. run_cases; reflexivity. Qed.

Lemma creation_attempt_expected (baseSha : option string) (attempt : Z) (w : W) :
  Forall (expected_call owner repo branchName baseBranch)
    (trace (creation_attempt owner repo octokit branchName baseSha attempt w)).
Proof.
  run_cases; repeat constructor; unfold expected_call; simpl; auto.
Qed.

Lemma creation_attempt_deletes_follow (baseSha : option string) (attempt : Z)
    (w : W) :
  deletes_follow_stale_conflict owner repo branchName
    (trace (creation_attempt owner repo octokit branchName baseSha attempt w)).
Proof.
  run_cases;
    try (apply deletes_follow_no_delete; reflexivity);
    apply deletes_follow_stale; split;
    repeat match goal with
    | H : negb _ = false |- _ => apply negb_false_iff, status_is_true in H
    end; eauto.
Qed.

(** *** One verification attempt *)

Lemma verification_attempt_getRef (attempt : Z) (w : W) :
  count is_getRef
    (trace (verification_attempt elapse owner repo octokit branchName attempt w))
  = 1%nat.
Proof. run_cases; reflexivity. Qed.

Lemma verification_attempt_no_mutation (attempt : Z) (w : W) :
  count is_createRef
    (trace (verification_attempt elapse owner repo octokit branchName attempt w))
  = 0%nat
  /\ count is_deleteRef
    (trace (verification_attempt elapse owner repo octokit branchName attempt w))
  = 0%nat.
Proof. run_cases; split; reflexivity. Qed.

Lemma verification_attempt_expected (attempt : Z) (w : W) :
  Forall (expected_call owner repo branchName baseBranch)
    (trace (verification_attempt elapse owner repo octokit branchName attempt w)).
Proof.
  run_cases; repeat constructor; unfold expected_call; simpl; auto.
Qed.

Lemma verification_attempt_delay (attempt : Z) (w : W) :
  let r := verification_attempt elapse owner repo octokit branchName attempt w in
  (completion r = Returned Next ->
   attempt < MAX_VERIFICATION_ATTEMPTS - 1
   /\ total_delay (trace r) = VERIFICATION_BASE_DELAY_MS * 2 ^ attempt)
  /\ (completion r <> Returned Next -> total_delay (trace r) = 0).
Proof.
  run_cases; split; intros H; try discriminate; try reflexivity;
    try (exfalso; apply H; reflexivity).
  - apply andb_true_iff in Heqb as [_ Hlt]. apply Z.ltb_lt in Hlt.
    split; [exact Hlt|]. unfold verification_delay. lia.
Qed.

(** *** The two loops *)

Lemma createBranchWithCleanup_counts (baseSha : option string) (w : W) :
  let tr := trace (createBranchWithCleanup owner repo octokit branchName baseSha w) in
  (count is_createRef tr <= 2)%nat
  /\ (count is_deleteRef tr <= 2)%nat
  /\ (count is_getRef tr <= 2)%nat
  /\ count is_setTimeout tr = 0%nat.
Proof.
  unfold createBranchWithCleanup. repeat split.
  - apply (for_attempts_count is_createRef _ _ 1 0).
    + intros. now rewrite creation_attempt_createRef.
    + intros. apply Nat.le_refl.
  - apply (for_attempts_count is_deleteRef _ _ 1 0).
    + intros. apply creation_attempt_deleteRef.
    + intros. apply Nat.le_refl.
  - apply (for_attempts_count is_getRef _ _ 1 0).
    + intros. apply creation_attempt_getRef.
    + intros. apply Nat.le_refl.
  - apply Nat.le_0_r.
    apply (for_attempts_count is_setTimeout _ _ 0 0).
    + intros. now rewrite creation_attempt_setTimeout.
    + intros. apply Nat.le_refl.
Qed.

Lemma verification_from_counts (remaining : nat) (attempt : Z) (w : W) :
  let tr := trace (verification_from elapse owner repo octokit branchName
                     remaining attempt w) in
  (count is_getRef tr <= remaining)%nat
  /\ count is_createRef tr = 0%nat
  /\ count is_deleteRef tr = 0%nat.
Proof.
  unfold verification_from. repeat split.
  - eapply Nat.le_trans; [apply (for_attempts_count is_getRef _ _ 1 0)|lia].
    + intros. now rewrite verification_attempt_getRef.
    + intros. apply Nat.le_refl.
  - apply Nat.le_0_r.
    eapply Nat.le_trans; [apply (for_attempts_count is_createRef _ _ 0 0)|lia].
    + intros. now rewrite (proj1 (verification_attempt_no_mutation _ _)).
    + intros. apply Nat.le_refl.
  - apply Nat.le_0_r.
    eapply Nat.le_trans; [apply (for_attempts_count is_deleteRef _ _ 0 0)|lia].
    + intros. now rewrite (proj2 (verification_attempt_no_mutation _ _)).
    + intros. apply Nat.le_refl.
Qed.

(** The waits of the verification loop add up to less than the next
    power of two of the schedule. *)
Lemma verification_from_total_delay (remaining : nat) :
  forall (attempt : Z) (w : W),
    0 <= attempt <= MAX_VERIFICATION_ATTEMPTS - 1 ->
    total_delay (trace (verification_from elapse owner repo octokit branchName
                          remaining attempt w))
    <= VERIFICATION_BASE_DELAY_MS * (2 ^ (MAX_VERIFICATION_ATTEMPTS - 1) - 2 ^ attempt).
Proof.
  unfold verification_from.
  induction remaining as [|remaining IH]; intros attempt w Hattempt.
  - simpl. unfold MAX_VERIFICATION_ATTEMPTS, VERIFICATION_BASE_DELAY_MS in *.
    assert (2 ^ attempt <= 2 ^ 6) by (apply Z.pow_le_mono_r; lia). simpl in *. lia.
  - simpl. rewrite trace_bind, total_delay_app.
    destruct (verification_attempt_delay attempt w) as [Hnext Hother].
    assert (Hpow : 2 ^ attempt <= 2 ^ (MAX_VERIFICATION_ATTEMPTS - 1))
      by (apply Z.pow_le_mono_r; lia).
    destruct (completion (verification_attempt elapse owner repo octokit
                            branchName attempt w)) as [[|b]|t] eqn:Hc.
    + destruct (Hnext eq_refl) as [Hlt ->].
      specialize (IH (attempt + 1)
        (world (verification_attempt elapse owner repo octokit branchName attempt w))).
      rewrite Z.pow_add_r in IH by lia.
      unfold MAX_VERIFICATION_ATTEMPTS, VERIFICATION_BASE_DELAY_MS in *. lia.
    + rewrite Hother by discriminate. simpl.
      unfold MAX_VERIFICATION_ATTEMPTS, VERIFICATION_BASE_DELAY_MS in *. lia.
    + rewrite Hother by discriminate. simpl.
      unfold MAX_VERIFICATION_ATTEMPTS, VERIFICATION_BASE_DELAY_MS in *. lia.
Qed.

(** *** The paths through the function, reply by reply *)

Ltac settle H :=
  unfold ensure_with_client, create_and_verify, creation_attempt,
    verification_attempt, call_createRef, call_getRef, call_deleteRef,
    await, request, bind; simpl;
  rewrite H; simpl.

Lemma ensure_present (w w1 : W) (data : RefData) :
  getRef octokit owner repo (branchRef branchName) w = (Fulfilled data, w1) ->
  ensure_with_client elapse owner repo octokit branchName baseBranch w
  = {| completion := Returned true;
       world := w1;
       trace := [(GetRef owner repo (branchRef branchName), None)] |}.
Proof. intros H. settle H. reflexivity. Qed.

Lemma ensure_unreadable (w w1 : W) (e : RequestError) :
  getRef octokit owner repo (branchRef branchName) w = (Rejected e, w1) ->
  status_is e 404 = false ->
  ensure_with_client elapse owner repo octokit branchName baseBranch w
  = {| completion := Threw (Rethrown e);
       world := w1;
       trace := [(GetRef owner repo (branchRef branchName), Some e)] |}.
Proof. intros H Hs. settle H. rewrite Hs. reflexivity. Qed.

Lemma ensure_absent (w w1 : W) (e : RequestError) :
  getRef octokit owner repo (branchRef branchName) w = (Rejected e, w1) ->
  status_is e 404 = true ->
  ensure_with_client elapse owner repo octokit branchName baseBranch w
  = preceded [(GetRef owner repo (branchRef branchName), Some e)]
      (create_and_verify elapse owner repo octokit branchName baseBranch w1).
Proof. intros H Hs. settle H. rewrite Hs. reflexivity. Qed.

Lemma base_unreadable (w1 w2 : W) (e : RequestError) :
  getRef octokit owner repo (baseRef baseBranch) w1 = (Rejected e, w2) ->
  create_and_verify elapse owner repo octokit branchName baseBranch w1
  = {| completion := Threw (Rethrown e);
       world := w2;
       trace := [(GetRef owner repo (baseRef baseBranch), Some e)] |}.
Proof. intros H. settle H. reflexivity. Qed.

Lemma base_readable (w1 w2 : W) (base : RefData) :
  getRef octokit owner repo (baseRef baseBranch) w1 = (Fulfilled base, w2) ->
  create_and_verify elapse owner repo octokit branchName baseBranch w1
  = preceded [(GetRef owner repo (baseRef baseBranch), None)]
      (bind (createBranchWithCleanup owner repo octokit branchName
               (resolveRefSha base))
            (fun _ => verification elapse owner repo octokit branchName) w2).
Proof. intros H. settle H. reflexivity. Qed.

Lemma bind_returned {A B : Type} (m : @Async W A) (k : A -> @Async W B)
    (w : W) (a : A) :
  completion (m w) = Returned a ->
  bind m k w = preceded (trace (m w)) (k a (world (m w))).
Proof. intros H. unfold bind, preceded. now rewrite H. Qed.

Lemma bind_threw {A B : Type} (m : @Async W A) (k : A -> @Async W B)
    (w : W) (t : Thrown) :
  completion (m w) = Threw t ->
  bind m k w
  = {| completion := Threw t; world := world (m w); trace := trace (m w) |}.
Proof. intros H. unfold bind. now rewrite H. Qed.

Lemma preceded_preceded {A : Type} (tr1 tr2 : list Event) (r : @Run W A) :
  preceded tr1 (preceded tr2 r) = preceded (tr1 ++ tr2) r.
Proof. unfold preceded. simpl. now rewrite app_assoc. Qed.

Lemma creation_succeeds (baseSha : option string) (w2 w3 : W) (u : unit) :
  createRef octokit owner repo (fullBranchRef branchName) baseSha w2
  = (Fulfilled u, w3) ->
  createBranchWithCleanup owner repo octokit branchName baseSha w2
  = {| completion := Returned tt;
       world := w3;
       trace := [(CreateRef owner repo (fullBranchRef branchName) baseSha, None)] |}.
Proof.
  intros H. unfold createBranchWithCleanup. simpl. settle H. reflexivity.
Qed.

(** After a stale conflict and a delete that is tolerated, the loop goes
    into its second and last iteration. *)
Lemma creation_retries (baseSha : option string) (w2 w3 w4 w5 : W)
    (e e' : RequestError) (deleted : Settled unit) :
  createRef octokit owner repo (fullBranchRef branchName) baseSha w2
  = (Rejected e, w3) ->
  status_is e 422 = true ->
  getRef octokit owner repo (branchRef branchName) w3 = (Rejected e', w4) ->
  status_is e' 404 = true ->
  deleteRef octokit owner repo (fullBranchRef branchName) w4 = (deleted, w5) ->
  tolerated deleted = true ->
  createBranchWithCleanup owner repo octokit branchName baseSha w2
  = preceded
      [(CreateRef owner repo (fullBranchRef branchName) baseSha, Some e);
       (GetRef owner repo (branchRef branchName), Some e');
       (DeleteRef owner repo (fullBranchRef branchName), failure deleted)]
      (for_attempts 1 1
         (creation_attempt owner repo octokit branchName baseSha)
         (throw (NewError (unable_to_create_message branchName))) w5).
Proof.
  intros Hc Hs Hg Hs' Hd Ht.
  unfold createBranchWithCleanup, MAX_CREATION_ATTEMPTS.
  change (Z.to_nat 2) with 2%nat.
  change (for_attempts 2 0 ?body ?after)
    with (bind (body 0)
            (fun s => match s with
                      | Return a => ret a
                      | Next => for_attempts 1 (0 + 1) body after
                      end)).
  assert (Hstep :
    creation_attempt owner repo octokit branchName baseSha 0 w2
    = {| completion := Returned Next;
         world := w5;
         trace :=
           [(CreateRef owner repo (fullBranchRef branchName) baseSha, Some e);
            (GetRef owner repo (branchRef branchName), Some e');
            (DeleteRef owner repo (fullBranchRef branchName), failure deleted)] |}).
  { settle Hc. rewrite Hs. simpl. rewrite Hg. simpl. rewrite Hs'. simpl.
    rewrite Hd. destruct deleted as [u|de]; simpl in *; [reflexivity|].
    now rewrite Ht. }
  rewrite (bind_returned _ _ _ Next) by now rewrite Hstep.
  now rewrite Hstep.
Qed.

(** The last iteration makes one create call and no further one. *)
Lemma creation_last_attempt (baseSha : option string) (attempt : Z) (w : W) :
  let r := for_attempts 1 attempt
             (creation_attempt owner repo octokit branchName baseSha)
             (throw (NewError (unable_to_create_message branchName))) w in
  exists created w' rest,
    createRef octokit owner repo (fullBranchRef branchName) baseSha w
    = (created, w')
    /\ trace r
       = (CreateRef owner repo (fullBranchRef branchName) baseSha, failure created)
           :: rest
    /\ count is_createRef rest = 0%nat
    /\ (count is_deleteRef rest <= 1)%nat
    /\ ((forall e e' w'',
            created = Rejected e -> status_is e 422 = true ->
            getRef octokit owner repo (branchRef branchName) w' = (Rejected e', w'') ->
            status_is e' 404 = false) ->
        count is_deleteRef rest = 0%nat).
Proof.
  simpl.
  destruct (createRef octokit owner repo (fullBranchRef branchName) baseSha w)
    as [created w'] eqn:Hc.
  exists created, w'.
  run_cases; injection Hc as <- <-;
    eexists; (split; [reflexivity|]); (split; [reflexivity|]);
    repeat split; unfold count; simpl; try lia; try reflexivity;
    intros Hno;
    match goal with
    | Hg : getRef _ _ _ _ _ = (Rejected ?e', ?w'') |- _ =>
        specialize (Hno _ e' w'' eq_refl);
        rewrite Hg in Hno
    end;
    repeat match goal with
    | H : negb _ = false |- _ => apply negb_false_iff in H
    end;
    specialize (Hno ltac:(assumption) eq_refl); congruence.
Qed.

(** *** The verification loop, read by read *)

(** The three ways through the body of the loop. *)
Lemma verification_attempt_cases (attempt : Z) (w : W) :
  let r := verification_attempt elapse owner repo octokit branchName attempt w in
  (exists data w',
      getRef octokit owner repo (branchRef branchName) w = (Fulfilled data, w')
      /\ r = {| completion := Returned (Return true);
                world := w';
                trace := [(GetRef owner repo (branchRef branchName), None)] |})
  \/ (exists e w',
      getRef octokit owner repo (branchRef branchName) w = (Rejected e, w')
      /\ status_is e 404 = true
      /\ attempt < MAX_VERIFICATION_ATTEMPTS - 1
      /\ r = {| completion := Returned Next;
                world := elapse (verification_delay attempt) w';
                trace := [(GetRef owner repo (branchRef branchName), Some e);
                          (SetTimeout (verification_delay attempt), None)] |})
  \/ (exists e w',
      getRef octokit owner repo (branchRef branchName) w = (Rejected e, w')
      /\ (status_is e 404 = false \/ MAX_VERIFICATION_ATTEMPTS - 1 <= attempt)
      /\ r = {| completion := Threw (NewError (not_accessible_message branchName));
                world := w';
                trace := [(GetRef owner repo (branchRef branchName), Some e)] |}).
Proof.
  run_cases.
  - left. eauto.
  - right; left. apply andb_true_iff in Heqb as [Hs Hlt]. apply Z.ltb_lt in Hlt.
    eauto 8.
  - right; right. apply andb_false_iff in Heqb as [Hs | Hlt].
    + eauto 8.
    + apply Z.ltb_ge in Hlt. eauto 8.
Qed.

Lemma verification_read_succeeds (remaining : nat) (attempt : Z) (w w' : W)
    (data : RefData) :
  getRef octokit owner repo (branchRef branchName) w = (Fulfilled data, w') ->
  verification_from elapse owner repo octokit branchName (S remaining) attempt w
  = {| completion := Returned true;
       world := w';
       trace := [(GetRef owner repo (branchRef branchName), None)] |}.
Proof. intros H. unfold verification_from. simpl. settle H. reflexivity. Qed.

Lemma verification_gives_up (remaining : nat) (attempt : Z) (w w' : W)
    (e : RequestError) :
  getRef octokit owner repo (branchRef branchName) w = (Rejected e, w') ->
  status_is e 404 && (attempt <? MAX_VERIFICATION_ATTEMPTS - 1) = false ->
  verification_from elapse owner repo octokit branchName (S remaining) attempt w
  = {| completion := Threw (NewError (not_accessible_message branchName));
       world := w';
       trace := [(GetRef owner repo (branchRef branchName), Some e)] |}.
Proof.
  intros H Hs. unfold verification_from. simpl. settle H. rewrite Hs. reflexivity.
Qed.

Lemma verification_read_missed (remaining : nat) (attempt : Z) (w w' : W)
    (e : RequestError) :
  getRef octokit owner repo (branchRef branchName) w = (Rejected e, w') ->
  status_is e 404 = true ->
  attempt < MAX_VERIFICATION_ATTEMPTS - 1 ->
  verification_from elapse owner repo octokit branchName (S remaining) attempt w
  = preceded
      [(GetRef owner repo (branchRef branchName), Some e);
       (SetTimeout (VERIFICATION_BASE_DELAY_MS * 2 ^ attempt), None)]
      (verification_from elapse owner repo octokit branchName remaining
         (attempt + 1) (elapse (verification_delay attempt) w')).
Proof.
  intros H Hs Hlt. apply Z.ltb_lt in Hlt.
  unfold verification_from. simpl. settle H. rewrite Hs, Hlt. reflexivity.
Qed.

Lemma missed_reads_length (n : nat) :
  forall (attempt : Z) (w w' : W) (es : list RequestError),
    missed_reads elapse owner repo octokit branchName n attempt w = Some (es, w') ->
    List.length es = n.
Proof.
  induction n as [|n IH]; intros attempt w w' es; simpl.
  - intros [= <- _]. reflexivity.
  - destruct (getRef octokit owner repo (branchRef branchName) w) as [[d|e] w1];
      [discriminate|].
    destruct (status_is e 404); [|discriminate].
    destruct (missed_reads elapse owner repo octokit branchName n (attempt + 1)
                (elapse (verification_delay attempt) w1)) as [[es' w2]|] eqn:Hm;
      [|discriminate].
    intros [= <- _]. simpl. f_equal. exact (IH _ _ _ _ Hm).
Qed.

(** As long as attempts remain, reads that miss are each followed by the
    wait of their attempt, and the loop goes on. *)
Lemma verification_misses (n : nat) :
  forall (remaining : nat) (attempt : Z) (w w' : W) (es : list RequestError),
    missed_reads elapse owner repo octokit branchName n attempt w = Some (es, w') ->
    attempt + Z.of_nat n <= MAX_VERIFICATION_ATTEMPTS - 1 ->
    verification_from elapse owner repo octokit branchName (n + remaining) attempt w
    = preceded (backoff_schedule owner repo branchName attempt es)
        (verification_from elapse owner repo octokit branchName remaining
           (attempt + Z.of_nat n) w').
Proof.
  induction n as [|n IH]; intros remaining attempt w w' es Hm Hle.
  - simpl in Hm. injection Hm as <- <-. simpl.
    rewrite Z.add_0_r. unfold preceded. simpl.
    now destruct (verification_from elapse owner repo octokit branchName
                    remaining attempt w).
  - simpl in Hm.
    destruct (getRef octokit owner repo (branchRef branchName) w)
      as [[d|e] w1] eqn:Hg; [discriminate|].
    destruct (status_is e 404) eqn:Hs; [|discriminate].
    destruct (missed_reads elapse owner repo octokit branchName n (attempt + 1)
                (elapse (verification_delay attempt) w1)) as [[es' w2]|] eqn:Hm';
      [|discriminate].
    injection Hm as <- <-.
    change (S n + remaining)%nat with (S (n + remaining)).
    rewrite (verification_read_missed _ _ _ _ _ Hg Hs) by lia.
    rewrite (IH remaining _ _ _ _ Hm') by lia.
    rewrite preceded_preceded. simpl.
    replace (attempt + 1 + Z.of_nat n) with (attempt + Z.of_nat (S n)) by lia.
    reflexivity.
Qed.

(** The loop never passes on an error of the client: whatever it throws
    is the error built on lines 92-94. *)
Lemma verification_from_threw (remaining : nat) :
  forall (attempt : Z) (w : W) (t : Thrown),
    completion (verification_from elapse owner repo octokit branchName
                  remaining attempt w) = Threw t ->
    t = NewError (not_accessible_message branchName).
Proof.
  unfold verification_from.
  induction remaining as [|remaining IH]; intros attempt w t; simpl.
  - discriminate.
  - rewrite completion_bind.
    destruct (verification_attempt_cases attempt w)
      as [(d & w' & _ & ->) | [(e & w' & _ & _ & _ & ->) | (e & w' & _ & _ & ->)]];
      simpl.
    + discriminate.
    + apply IH.
    + congruence.
Qed.

(** While the loop counter is in step with the bound of the loop, the
    loop is left by a read that succeeded or by a [throw], never through
    the [return true] of line 99. *)
Lemma verification_from_returned (remaining : nat) :
  forall (attempt : Z) (w : W) (b : bool),
    attempt + Z.of_nat remaining = MAX_VERIFICATION_ATTEMPTS ->
    (0 < remaining)%nat ->
    completion (verification_from elapse owner repo octokit branchName
                  remaining attempt w) = Returned b ->
    b = true
    /\ exists w0 data,
        getRef octokit owner repo (branchRef branchName) w0
        = (Fulfilled data,
           world (verification_from elapse owner repo octokit branchName
                    remaining attempt w)).
Proof.
  unfold verification_from.
  induction remaining as [|remaining IH]; intros attempt w b Hsum Hpos; [lia|].
  simpl. rewrite completion_bind, world_bind.
  destruct (verification_attempt_cases attempt w)
    as [(d & w' & Hg & ->) | [(e & w' & _ & _ & Hlt & ->) | (e & w' & _ & _ & ->)]];
    simpl.
  - intros [= <-]. split; [reflexivity|]. eauto.
  - apply IH; unfold MAX_VERIFICATION_ATTEMPTS in *; lia.
  - discriminate.
Qed.

(** *** The whole function, for every client *)

Lemma request_trace {A : Type} (c : Call) (op : W -> Settled A * W) (w : W) :
  trace (request c op w) = [(c, failure (fst (op w)))].
Proof. unfold request. now destruct (op w). Qed.

Lemma await_trace {A : Type} (c : Call) (op : W -> Settled A * W) (w : W) :
  trace (await c op w) = [(c, failure (fst (op w)))].
Proof. unfold await, request, bind. now destruct (op w) as [[a|e] w']. Qed.

(** A property of traces that every piece of the function has is a
    property of the trace of the function. *)
Lemma ensure_with_client_compositional (P : list Event -> Prop) (w : W) :
  compositional P ->
  (forall o, P [(GetRef owner repo (branchRef branchName), o)]) ->
  (forall o, P [(GetRef owner repo (baseRef baseBranch), o)]) ->
  (forall baseSha attempt w',
      P (trace (creation_attempt owner repo octokit branchName baseSha attempt w'))) ->
  (forall attempt w',
      P (trace (verification_attempt elapse owner repo octokit branchName attempt w'))) ->
  P (trace (ensure_with_client elapse owner repo octokit branchName baseBranch w)).
Proof.
  intros HP Hbranch Hbase Hcreate Hverify.
  pose proof HP as [Hnil _].
  unfold ensure_with_client.
  apply bind_compositional; [exact HP | |].
  { unfold call_getRef. rewrite request_trace. apply Hbranch. }
  intros [data|e] w1; [exact Hnil|].
  destruct (negb (status_is e 404)); [exact Hnil|].
  unfold create_and_verify.
  apply bind_compositional; [exact HP | |].
  { rewrite await_trace. apply Hbase. }
  intros base w2.
  apply bind_compositional; [exact HP | |].
  { unfold createBranchWithCleanup.
    apply for_attempts_compositional; [exact HP | apply Hcreate |].
    intros w3. exact Hnil. }
  intros _ w3. unfold verification, verification_from.
  apply for_attempts_compositional; [exact HP | apply Hverify |].
  intros w4. exact Hnil.
Qed.

Lemma ensure_with_client_count (kind : Event -> bool) (g c v : nat) (w : W) :
  (forall ref o, (count kind [(GetRef owner repo ref, o)] <= g)%nat) ->
  (forall baseSha w',
      (count kind
         (trace (createBranchWithCleanup owner repo octokit branchName baseSha w'))
       <= c)%nat) ->
  (forall w',
      (count kind (trace (verification elapse owner repo octokit branchName w'))
       <= v)%nat) ->
  (count kind
     (trace (ensure_with_client elapse owner repo octokit branchName baseBranch w))
   <= g + (g + (c + v)))%nat.
Proof.
  intros Hget Hcreate Hverify.
  unfold ensure_with_client.
  apply bind_count.
  { unfold call_getRef. rewrite request_trace. apply Hget. }
  intros [data|e] w1; [rewrite count_nil; lia|].
  destruct (negb (status_is e 404)); [rewrite count_nil; lia|].
  unfold create_and_verify.
  apply bind_count.
  { rewrite await_trace. apply Hget. }
  intros base w2.
  apply bind_count; [apply Hcreate|].
  intros _ w3. apply Hverify.
Qed.

Lemma ensure_with_client_counts (w : W) :
  let tr :=
    trace (ensure_with_client elapse owner repo octokit branchName baseBranch w) in
  (count is_createRef tr <= 2)%nat
  /\ (count is_deleteRef tr <= 2)%nat
  /\ (count is_getRef tr <= 11)%nat.
Proof.
  repeat split.
  - apply (ensure_with_client_count is_createRef 0 2 0).
    + intros. apply Nat.le_refl.
    + intros. apply createBranchWithCleanup_counts.
    + intros. unfold verification.
      now rewrite (proj1 (proj2 (verification_from_counts _ _ _))).
  - apply (ensure_with_client_count is_deleteRef 0 2 0).
    + intros. apply Nat.le_refl.
    + intros. apply createBranchWithCleanup_counts.
    + intros. unfold verification.
      now rewrite (proj2 (proj2 (verification_from_counts _ _ _))).
  - apply (ensure_with_client_count is_getRef 1 2 7).
    + intros. apply Nat.le_refl.
    + intros. apply createBranchWithCleanup_counts.
    + intros. unfold verification.
      apply (proj1 (verification_from_counts _ _ _)).
Qed.

Lemma ensure_with_client_total_delay (w : W) :
  total_delay
    (trace (ensure_with_client elapse owner repo octokit branchName baseBranch w))
  <= 31500.
Proof.
  unfold ensure_with_client.
  rewrite trace_bind, total_delay_app.
  unfold call_getRef at 1. rewrite request_trace. simpl (total_delay [_]).
  destruct (completion _) as [[data|e]|t]; simpl; try lia.
  destruct (negb (status_is e 404)); simpl; try lia.
  unfold create_and_verify.
  rewrite trace_bind, total_delay_app, await_trace. simpl (total_delay [_]).
  destruct (completion _) as [base|t]; simpl; try lia.
  rewrite trace_bind, total_delay_app.
  rewrite (total_delay_no_setTimeout
             (trace (createBranchWithCleanup owner repo octokit branchName _ _)))
    by apply createBranchWithCleanup_counts.
  destruct (completion _) as [u|t]; simpl; try lia.
  unfold verification.
  match goal with
  | |- context [total_delay (trace (verification_from _ _ _ _ _ ?n ?a ?w'))] =>
      pose proof (verification_from_total_delay n a w') as Hv
  end.
  unfold MAX_VERIFICATION_ATTEMPTS, VERIFICATION_BASE_DELAY_MS in *.
  change (2 ^ (7 - 1)) with 64 in Hv. change (2 ^ 0) with 1 in Hv. lia.
Qed.

(** When the function returns, it returns [true], right after a read of
    the branch that succeeded. *)
Lemma ensure_with_client_returned (w : W) (b : bool) :
  completion (ensure_with_client elapse owner repo octokit branchName baseBranch w)
  = Returned b ->
  b = true
  /\ exists w0 data,
      getRef octokit owner repo (branchRef branchName) w0
      = (Fulfilled data,
         world (ensure_with_client elapse owner repo octokit branchName
                  baseBranch w)).
Proof.
  destruct (getRef octokit owner repo (branchRef branchName) w)
    as [[data|e] w1] eqn:Hg.
  - rewrite (ensure_present _ _ _ Hg). simpl. intros [= <-]. eauto.
  - destruct (status_is e 404) eqn:Hs.
    + rewrite (ensure_absent _ _ _ Hg Hs). simpl.
      unfold create_and_verify.
      rewrite completion_bind, world_bind.
      destruct (completion (await _ _ w1)) as [base|t]; [|discriminate].
      rewrite completion_bind, world_bind.
      destruct (completion (createBranchWithCleanup _ _ _ _ _ _)) as [u|t];
        [|discriminate].
      unfold verification. apply verification_from_returned.
      * reflexivity.
      * unfold MAX_VERIFICATION_ATTEMPTS. simpl. lia.
    + rewrite (ensure_unreadable _ _ _ Hg Hs). discriminate.
Qed.

End Properties.

(** ** The guarantees of [ensureUpdateBranchExists] *)

Section Guarantees.

Context {W : Type}.
Variable elapse : Z -> W -> W.
Variables owner repo : string.

(** Without a client the function throws before any call is made. *)
Lemma ensure_without_client (branchName baseBranch : string) (w : W) :
  ensureUpdateBranchExists elapse owner repo None branchName baseBranch w
  = {| completion := Threw (NewError missing_client_message);
       world := w;
       trace := [] |}.
Proof. reflexivity. Qed.

(** C3, as amended.  For every client and every sequence of replies, one
    call of ensureUpdateBranchExists makes at most two createRef calls and
    at most two deleteRef calls, and every call it makes is a getRef of
    the branch or of the base, a createRef or a deleteRef of the fully
    qualified ref of the branch, or a wait: nothing else is changed on the
    remote side. *)
Theorem at_most_two_creations_and_deletions
    (client : option Octokit) (branchName baseBranch : string) (w : W) :
  let tr :=
    trace (ensureUpdateBranchExists elapse owner repo client branchName
             baseBranch w) in
  (count is_createRef tr <= 2)%nat
  /\ (count is_deleteRef tr <= 2)%nat
  /\ Forall (expected_call owner repo branchName baseBranch) tr.
Proof.
  destruct client as [octokit|]; simpl.
  - pose proof (ensure_with_client_counts elapse owner repo octokit branchName
                  baseBranch w) as (Hc & Hd & _).
    repeat split; [exact Hc | exact Hd |].
    apply (ensure_with_client_compositional elapse owner repo octokit branchName
             baseBranch (fun tr => Forall _ tr)).
    + apply compositional_Forall.
    + intros o. constructor; [|constructor]. unfold expected_call. simpl. auto.
    + intros o. constructor; [|constructor]. unfold expected_call. simpl. auto.
    + intros. apply creation_attempt_expected.
    + intros. apply verification_attempt_expected.
  - repeat split; try apply Nat.le_0_l. constructor.
Qed.

(** C9.  For every client and every sequence of replies, each deleteRef
    call of ensureUpdateBranchExists comes immediately after a createRef
    call that failed with status 422 followed by a read of the branch that
    failed with status 404.  No other path, successful or not, deletes. *)
Theorem delete_only_after_stale_conflict
    (client : option Octokit) (branchName baseBranch : string) (w : W) :
  deletes_follow_stale_conflict owner repo branchName
    (trace (ensureUpdateBranchExists elapse owner repo client branchName
              baseBranch w)).
Proof.
  destruct client as [octokit|]; simpl; [|apply deletes_follow_nil].
  apply (ensure_with_client_compositional elapse owner repo octokit branchName
           baseBranch).
  - split; [apply deletes_follow_nil | apply deletes_follow_app].
  - intros o. apply deletes_follow_no_delete. reflexivity.
  - intros o. apply deletes_follow_no_delete. reflexivity.
  - intros. apply creation_attempt_deletes_follow.
  - intros. apply deletes_follow_no_delete.
    apply (verification_attempt_no_mutation elapse owner repo octokit).
Qed.

(** C10.  For every client and every sequence of replies,
    ensureUpdateBranchExists terminates (it is a total function of the
    world: both loops run a fixed number of iterations), making at most 2
    createRef calls, at most 2 deleteRef calls and at most 11 getRef
    calls, and waiting at most 31500 ms in all. *)
Theorem bounded_calls
    (client : option Octokit) (branchName baseBranch : string) (w : W) :
  exists r,
    ensureUpdateBranchExists elapse owner repo client branchName baseBranch w = r
    /\ (count is_createRef (trace r) <= 2)%nat
    /\ (count is_deleteRef (trace r) <= 2)%nat
    /\ (count is_getRef (trace r) <= 11)%nat
    /\ total_delay (trace r) <= 31500.
Proof.
  eexists. split; [reflexivity|].
  destruct client as [octokit|]; simpl.
  - pose proof (ensure_with_client_counts elapse owner repo octokit branchName
                  baseBranch w) as (Hc & Hd & Hg).
    pose proof (ensure_with_client_total_delay elapse owner repo octokit
                  branchName baseBranch w).
    auto.
  - repeat split; try apply Nat.le_0_l. lia.
Qed.

Variable octokit : Octokit (W := W).
Variables branchName baseBranch : string.

(** The clean creation path: the branch is absent, the base is read,
    the first create call succeeds and so does the first verification
    read.  The calls are exactly these four, and the value returned is
    [true]. *)
Lemma clean_creation (w w1 w2 w3 w4 : W) (e : RequestError)
    (base data : RefData) (u : unit) :
  getRef octokit owner repo (branchRef branchName) w = (Rejected e, w1) ->
  status_is e 404 = true ->
  getRef octokit owner repo (baseRef baseBranch) w1 = (Fulfilled base, w2) ->
  createRef octokit owner repo (fullBranchRef branchName) (resolveRefSha base) w2
  = (Fulfilled u, w3) ->
  getRef octokit owner repo (branchRef branchName) w3 = (Fulfilled data, w4) ->
  ensureUpdateBranchExists elapse owner repo (Some octokit) branchName baseBranch w
  = {| completion := Returned true;
       world := w4;
       trace :=
         [(GetRef owner repo (branchRef branchName), Some e);
          (GetRef owner repo (baseRef baseBranch), None);
          (CreateRef owner repo (fullBranchRef branchName) (resolveRefSha base),
           None);
          (GetRef owner repo (branchRef branchName), None)] |}.
Proof.
  intros Hg Hs Hb Hc Hv. simpl.
  rewrite (ensure_absent _ _ _ _ _ _ _ _ _ Hg Hs).
  rewrite (base_readable _ _ _ _ _ _ _ _ _ Hb).
  pose proof (creation_succeeds owner repo octokit branchName _ _ _ _ Hc) as Hcr.
  rewrite (bind_returned _ _ _ tt) by now rewrite Hcr.
  rewrite Hcr. simpl.
  unfold verification, MAX_VERIFICATION_ATTEMPTS.
  change (Z.to_nat 7) with 7%nat.
  rewrite (verification_read_succeeds _ _ _ _ _ _ _ _ _ _ Hv).
  reflexivity.
Qed.

(** The function reaches its verification loop once the branch was found
    absent, the base was read and the creation phase returned. *)
Lemma reaches_verification (w w1 w2 : W) (e : RequestError) (base : RefData) :
  getRef octokit owner repo (branchRef branchName) w = (Rejected e, w1) ->
  status_is e 404 = true ->
  getRef octokit owner repo (baseRef baseBranch) w1 = (Fulfilled base, w2) ->
  let creation :=
    createBranchWithCleanup owner repo octokit branchName (resolveRefSha base) w2 in
  completion creation = Returned tt ->
  ensureUpdateBranchExists elapse owner repo (Some octokit) branchName baseBranch w
  = preceded
      ((GetRef owner repo (branchRef branchName), Some e)
         :: (GetRef owner repo (baseRef baseBranch), None)
         :: trace creation)
      (verification elapse owner repo octokit branchName (world creation)).
Proof.
  intros Hg Hs Hb creation Hc. simpl.
  rewrite (ensure_absent _ _ _ _ _ _ _ _ _ Hg Hs).
  rewrite (base_readable _ _ _ _ _ _ _ _ _ Hb).
  rewrite (bind_returned _ _ _ tt) by exact Hc.
  now rewrite !preceded_preceded.
Qed.

(** C4.  When the function has reached its verification loop and the
    reads of the branch report 404 on attempts 0 to 5 and succeed on
    attempt 6, the function returns [true]; the loop starts with a read,
    no wait comes before it, and the wait before attempt k, for k from 1
    to 6, lasts exactly 500 * 2^(k-1) ms: each missed read is followed by
    its wait, and nothing else is in between. *)
Theorem backoff_doubles_until_read_succeeds
    (w w1 w2 w6 w7 : W) (e : RequestError) (base data : RefData)
    (missed : list RequestError) :
  getRef octokit owner repo (branchRef branchName) w = (Rejected e, w1) ->
  status_is e 404 = true ->
  getRef octokit owner repo (baseRef baseBranch) w1 = (Fulfilled base, w2) ->
  let creation :=
    createBranchWithCleanup owner repo octokit branchName (resolveRefSha base) w2 in
  completion creation = Returned tt ->
  missed_reads elapse owner repo octokit branchName 6 0 (world creation)
  = Some (missed, w6) ->
  getRef octokit owner repo (branchRef branchName) w6 = (Fulfilled data, w7) ->
  let r :=
    ensureUpdateBranchExists elapse owner repo (Some octokit) branchName
      baseBranch w in
  completion r = Returned true
  /\ trace r
     = ((GetRef owner repo (branchRef branchName), Some e)
          :: (GetRef owner repo (baseRef baseBranch), None)
          :: trace creation)
       ++ backoff_schedule owner repo branchName 0 missed
       ++ [(GetRef owner repo (branchRef branchName), None)]
  /\ List.length missed = 6%nat
  /\ count is_setTimeout (trace creation) = 0%nat
  /\ delays (trace r) = [500; 1000; 2000; 4000; 8000; 16000]
  /\ forall k : nat,
       (1 <= k <= 6)%nat ->
       nth_error (delays (trace r)) (k - 1) = Some (500 * 2 ^ (Z.of_nat k - 1)).
Proof.
  intros Hg Hs Hb creation Hc Hm Hv r.
  assert (Hr : r = preceded
      (((GetRef owner repo (branchRef branchName), Some e)
          :: (GetRef owner repo (baseRef baseBranch), None)
          :: trace creation)
       ++ backoff_schedule owner repo branchName 0 missed)
      {| completion := Returned true;
         world := w7;
         trace := [(GetRef owner repo (branchRef branchName), None)] |}).
  { unfold r. rewrite (reaches_verification _ _ _ _ _ Hg Hs Hb Hc).
    unfold verification, MAX_VERIFICATION_ATTEMPTS.
    change (Z.to_nat 7) with (6 + 1)%nat.
    rewrite (verification_misses elapse owner repo octokit branchName
               _ _ _ _ _ _ Hm)
      by (unfold MAX_VERIFICATION_ATTEMPTS; simpl; lia).
    rewrite (verification_read_succeeds _ _ _ _ _ _ _ _ _ _ Hv).
    now rewrite preceded_preceded. }
  pose proof (missed_reads_length _ _ _ _ _ _ _ _ _ _ Hm) as Hlen.
  assert (Hquiet : count is_setTimeout (trace creation) = 0%nat)
    by apply createBranchWithCleanup_counts.
  assert (Hdelays : delays (trace r) = [500; 1000; 2000; 4000; 8000; 16000]).
  { rewrite Hr. unfold preceded. cbn [trace].
    rewrite <- app_assoc, delays_app. cbn [app delays].
    rewrite (delays_no_setTimeout _ Hquiet), delays_app.
    destruct missed as [|e0 [|e1 [|e2 [|e3 [|e4 [|e5 [|]]]]]]]; try discriminate.
    reflexivity. }
  repeat split; try assumption.
  - now rewrite Hr.
  - rewrite Hr. unfold preceded. cbn [trace]. now rewrite <- app_assoc.
  - intros k Hk. rewrite Hdelays.
    destruct k as [|[|[|[|[|[|[|k]]]]]]]; try lia; reflexivity.
Qed.

(** C5.  When the function has reached its verification loop and each of
    the 7 reads of the branch reports 404, the function neither returns
    nor passes the 404 on: it throws an error of its own, whose message
    contains "not accessible after multiple retries" and the name of the
    branch. *)
Theorem gives_up_after_seven_missed_reads
    (w w1 w2 w6 w7 : W) (e e6 : RequestError) (base : RefData)
    (missed : list RequestError) :
  getRef octokit owner repo (branchRef branchName) w = (Rejected e, w1) ->
  status_is e 404 = true ->
  getRef octokit owner repo (baseRef baseBranch) w1 = (Fulfilled base, w2) ->
  let creation :=
    createBranchWithCleanup owner repo octokit branchName (resolveRefSha base) w2 in
  completion creation = Returned tt ->
  missed_reads elapse owner repo octokit branchName 6 0 (world creation)
  = Some (missed, w6) ->
  getRef octokit owner repo (branchRef branchName) w6 = (Rejected e6, w7) ->
  status_is e6 404 = true ->
  let r :=
    ensureUpdateBranchExists elapse owner repo (Some octokit) branchName
      baseBranch w in
  exists msg,
    completion r = Threw (NewError msg)
    /\ includes "not accessible after multiple retries" msg
    /\ includes branchName msg
    /\ completion r <> Threw (Rethrown e6)
    /\ count is_getRef
         (backoff_schedule owner repo branchName 0 missed
          ++ [(GetRef owner repo (branchRef branchName), Some e6)]) = 7%nat
    /\ trace r
       = ((GetRef owner repo (branchRef branchName), Some e)
            :: (GetRef owner repo (baseRef baseBranch), None)
            :: trace creation)
         ++ backoff_schedule owner repo branchName 0 missed
         ++ [(GetRef owner repo (branchRef branchName), Some e6)].
Proof.
  intros Hg Hs Hb creation Hc Hm Hv Hs6 r.
  assert (Hr : r = preceded
      (((GetRef owner repo (branchRef branchName), Some e)
          :: (GetRef owner repo (baseRef baseBranch), None)
          :: trace creation)
       ++ backoff_schedule owner repo branchName 0 missed)
      {| completion := Threw (NewError (not_accessible_message branchName));
         world := w7;
         trace := [(GetRef owner repo (branchRef branchName), Some e6)] |}).
  { unfold r. rewrite (reaches_verification _ _ _ _ _ Hg Hs Hb Hc).
    unfold verification, MAX_VERIFICATION_ATTEMPTS.
    change (Z.to_nat 7) with (6 + 1)%nat.
    rewrite (verification_misses elapse owner repo octokit branchName
               _ _ _ _ _ _ Hm)
      by (unfold MAX_VERIFICATION_ATTEMPTS; simpl; lia).
    rewrite (verification_gives_up _ _ _ _ _ _ _ _ _ _ Hv)
      by (rewrite Hs6; reflexivity).
    now rewrite preceded_preceded. }
  exists (not_accessible_message branchName).
  pose proof (missed_reads_length _ _ _ _ _ _ _ _ _ _ Hm) as Hlen.
  rewrite Hr. unfold preceded. cbn [completion trace].
  repeat split.
  - exists ("Branch " ++ branchName ++ " was created but is ")%string, ""%string.
    unfold not_accessible_message. simpl.
    rewrite append_assoc. reflexivity.
  - exists "Branch "%string,
      " was created but is not accessible after multiple retries"%string.
    reflexivity.
  - discriminate.
  - destruct missed as [|e0 [|e1 [|e2 [|e3 [|e4 [|e5 [|]]]]]]]; try discriminate.
    reflexivity.
  - now rewrite <- app_assoc.
Qed.

(** A stale conflict in the last iteration of the creation loop: the
    delete is made, and the loop is left by the error of lines 173-175
    when the delete is tolerated, by the error of the delete otherwise. *)
Lemma last_attempt_cleans_up (baseSha : option string) (attempt : Z)
    (w5 w6 w7 w8 : W) (c2 g2 : RequestError) (d2 : Settled unit) :
  createRef octokit owner repo (fullBranchRef branchName) baseSha w5
  = (Rejected c2, w6) ->
  status_is c2 422 = true ->
  getRef octokit owner repo (branchRef branchName) w6 = (Rejected g2, w7) ->
  status_is g2 404 = true ->
  deleteRef octokit owner repo (fullBranchRef branchName) w7 = (d2, w8) ->
  for_attempts 1 attempt
    (creation_attempt owner repo octokit branchName baseSha)
    (throw (NewError (unable_to_create_message branchName))) w5
  = {| completion :=
         match d2 with
         | Fulfilled _ => Threw (NewError (unable_to_create_message branchName))
         | Rejected deleteError =>
             if tolerated d2
             then Threw (NewError (unable_to_create_message branchName))
             else Threw (Rethrown deleteError)
         end;
       world := w8;
       trace :=
         [(CreateRef owner repo (fullBranchRef branchName) baseSha, Some c2);
          (GetRef owner repo (branchRef branchName), Some g2);
          (DeleteRef owner repo (fullBranchRef branchName), failure d2)] |}.
Proof.
  intros Hc Hs Hg Hs' Hd. cbn [for_attempts].
  unfold creation_attempt, call_createRef, call_getRef, call_deleteRef,
    request, bind, ret, throw. simpl.
  rewrite Hc. simpl. rewrite Hs. simpl. rewrite Hg. simpl. rewrite Hs'. simpl.
  rewrite Hd. destruct d2 as [u|de]; simpl; [reflexivity|].
  destruct (status_is de 404 || status_is de 422); reflexivity.
Qed.

(** C6, as amended.  When the first createRef call fails with status 422
    and the read of the branch that follows reports 404, the next call is
    a deleteRef of refs/heads/<branch>.  When that call fails with a
    status other than 404 and 422, its error is thrown on as it is and
    nothing follows.  When it succeeds or fails with status 404 or 422,
    the next call is the retried createRef, with the same ref and hash,
    and it is the last createRef; at most one more deleteRef follows, and
    none unless the retried createRef fails with status 422 again and the
    read after it reports 404 again.  In that case the calls end with
    that read and one more deleteRef, and the function fails: with the
    error "Unable to create branch ..." when this deleteRef succeeds or
    fails with status 404 or 422, with the error of this deleteRef
    otherwise. *)
Theorem stale_reference_is_deleted_then_creation_retried
    (w w1 w2 w3 w4 w5 : W) (e e422 e404 : RequestError) (base : RefData)
    (deleted : Settled unit) :
  getRef octokit owner repo (branchRef branchName) w = (Rejected e, w1) ->
  status_is e 404 = true ->
  getRef octokit owner repo (baseRef baseBranch) w1 = (Fulfilled base, w2) ->
  createRef octokit owner repo (fullBranchRef branchName) (resolveRefSha base) w2
  = (Rejected e422, w3) ->
  status_is e422 422 = true ->
  getRef octokit owner repo (branchRef branchName) w3 = (Rejected e404, w4) ->
  status_is e404 404 = true ->
  deleteRef octokit owner repo (fullBranchRef branchName) w4 = (deleted, w5) ->
  let r :=
    ensureUpdateBranchExists elapse owner repo (Some octokit) branchName
      baseBranch w in
  let cleanup :=
    [(GetRef owner repo (branchRef branchName), Some e);
     (GetRef owner repo (baseRef baseBranch), None);
     (CreateRef owner repo (fullBranchRef branchName) (resolveRefSha base),
      Some e422);
     (GetRef owner repo (branchRef branchName), Some e404);
     (DeleteRef owner repo (fullBranchRef branchName), failure deleted)] in
  (tolerated deleted = false ->
   trace r = cleanup
   /\ exists deleteError,
       deleted = Rejected deleteError
       /\ completion r = Threw (Rethrown deleteError))
  /\ (tolerated deleted = true ->
      exists created w6 rest,
        createRef octokit owner repo (fullBranchRef branchName)
          (resolveRefSha base) w5 = (created, w6)
        /\ trace r
           = cleanup
             ++ (CreateRef owner repo (fullBranchRef branchName)
                   (resolveRefSha base), failure created) :: rest
        /\ count is_createRef rest = 0%nat
        /\ (count is_deleteRef rest <= 1)%nat
        /\ ((forall e' e'' w7,
                created = Rejected e' -> status_is e' 422 = true ->
                getRef octokit owner repo (branchRef branchName) w6
                = (Rejected e'', w7) ->
                status_is e'' 404 = false) ->
            count is_deleteRef rest = 0%nat)
        /\ (forall c2 g2 w7 d2 w8,
               created = Rejected c2 -> status_is c2 422 = true ->
               getRef octokit owner repo (branchRef branchName) w6
               = (Rejected g2, w7) ->
               status_is g2 404 = true ->
               deleteRef octokit owner repo (fullBranchRef branchName) w7
               = (d2, w8) ->
               rest = [(GetRef owner repo (branchRef branchName), Some g2);
                       (DeleteRef owner repo (fullBranchRef branchName),
                        failure d2)]
               /\ (tolerated d2 = true ->
                   completion r
                   = Threw (NewError (unable_to_create_message branchName)))
               /\ (tolerated d2 = false ->
                   exists deleteError,
                     d2 = Rejected deleteError
                     /\ completion r = Threw (Rethrown deleteError)))).
Proof.
  intros Hg Hs Hb Hc Hs422 Hg' Hs404 Hd r cleanup. unfold r. simpl.
  rewrite (ensure_absent _ _ _ _ _ _ _ _ _ Hg Hs).
  rewrite (base_readable _ _ _ _ _ _ _ _ _ Hb).
  split; intros Ht.
  - destruct deleted as [u|deleteError]; [discriminate|]. simpl in Ht.
    assert (Hcr :
      createBranchWithCleanup owner repo octokit branchName (resolveRefSha base) w2
      = {| completion := Threw (Rethrown deleteError);
           world := w5;
           trace :=
             [(CreateRef owner repo (fullBranchRef branchName)
                 (resolveRefSha base), Some e422);
              (GetRef owner repo (branchRef branchName), Some e404);
              (DeleteRef owner repo (fullBranchRef branchName),
               Some deleteError)] |}).
    { unfold createBranchWithCleanup, MAX_CREATION_ATTEMPTS.
      change (Z.to_nat 2) with 2%nat.
      cbn [for_attempts].
      match goal with
      | |- bind ?m ?k w2 = _ =>
          assert (Hstep : m w2
            = {| completion := Threw (Rethrown deleteError);
                 world := w5;
                 trace :=
                   [(CreateRef owner repo (fullBranchRef branchName)
                       (resolveRefSha base), Some e422);
                    (GetRef owner repo (branchRef branchName), Some e404);
                    (DeleteRef owner repo (fullBranchRef branchName),
                     Some deleteError)] |})
      end.
      { unfold creation_attempt, call_createRef, call_getRef, call_deleteRef,
          request, bind. simpl.
        rewrite Hc. simpl. rewrite Hs422. simpl. rewrite Hg'. simpl.
        rewrite Hs404. simpl. rewrite Hd. simpl. rewrite Ht. reflexivity. }
      rewrite (bind_threw _ _ _ (Rethrown deleteError)) by now rewrite Hstep.
      now rewrite Hstep. }
    rewrite (bind_threw _ _ _ (Rethrown deleteError)) by now rewrite Hcr.
    rewrite Hcr. simpl. split; [reflexivity|]. eauto.
  - pose proof (creation_retries owner repo octokit branchName _ _ _ _ _ _ _ _
                  Hc Hs422 Hg' Hs404 Hd Ht) as Hcr.
    destruct (creation_last_attempt owner repo octokit branchName
                (resolveRefSha base) 1 w5)
      as (created & w6 & rest & Hcreated & Hlast & Hcreates & Hdeletes & Hnone).
    exists created, w6.
    unfold preceded. cbn [trace completion world].
    rewrite trace_bind, completion_bind, Hcr.
    unfold preceded. cbn [trace completion world].
    rewrite Hlast.
    match goal with
    | |- context [match ?c with Returned _ => ?tr | Threw _ => [] end] =>
        set (tail := match c with Returned _ => tr | Threw _ => [] end)
    end.
    exists (rest ++ tail).
    assert (Hquiet : count is_createRef tail = 0%nat
                     /\ count is_deleteRef tail = 0%nat).
    { unfold tail. destruct (completion _); [|split; reflexivity].
      unfold verification.
      pose proof (verification_from_counts elapse owner repo octokit branchName
                    (Z.to_nat MAX_VERIFICATION_ATTEMPTS) 0
                    (world (for_attempts 1 1
                       (creation_attempt owner repo octokit branchName
                          (resolveRefSha base))
                       (throw (NewError (unable_to_create_message branchName)))
                       w5))) as (_ & H1 & H2).
      split; assumption. }
    destruct Hquiet as [Hq1 Hq2].
    split; [exact Hcreated|]. split.
    { unfold cleanup. simpl. reflexivity. }
    rewrite !count_app, Hq1, Hq2, Hcreates.
    split; [reflexivity|]. split; [lia|]. split.
    { intros Hno. rewrite (Hnone Hno). reflexivity. }
    intros c2 g2 w7 d2 w8 -> Hs2 Hg2 Hsg2 Hd2.
    pose proof (last_attempt_cleans_up (resolveRefSha base) 1 _ _ _ _ _ _ _
                  Hcreated Hs2 Hg2 Hsg2 Hd2) as Hstale.
    rewrite Hstale in Hlast. cbn [trace] in Hlast. injection Hlast as <-.
    unfold tail. rewrite Hstale. cbn [completion].
    split; [|split].
    + destruct d2 as [u|de]; [reflexivity|].
      destruct (tolerated (Rejected de)); reflexivity.
    + intros Ht2. destruct d2 as [u|de]; [reflexivity|]. now rewrite Ht2.
    + intros Ht2. destruct d2 as [u|de]; [discriminate|].
      exists de. split; [reflexivity|]. now rewrite Ht2.
Qed.

(** C7.  When the first read of the branch succeeds, the function
    returns [true], the value for a branch that already existed, after
    that single read: it makes no createRef and no deleteRef call.  Hence,
    with a repository in which a branch that was read stays readable, a
    second call made after a first call returned finds the branch: it
    returns [true] and makes no createRef and no deleteRef call. *)
Theorem existing_branch_is_left_alone :
  (forall (w w1 : W) (data : RefData),
      getRef octokit owner repo (branchRef branchName) w = (Fulfilled data, w1) ->
      let r :=
        ensureUpdateBranchExists elapse owner repo (Some octokit) branchName
          baseBranch w in
      completion r = Returned true
      /\ world r = w1
      /\ trace r = [(GetRef owner repo (branchRef branchName), None)]
      /\ count is_createRef (trace r) = 0%nat
      /\ count is_deleteRef (trace r) = 0%nat)
  /\ (branch_stays_readable owner repo octokit branchName ->
      forall (w : W) (b : bool),
        let first :=
          ensureUpdateBranchExists elapse owner repo (Some octokit) branchName
            baseBranch w in
        completion first = Returned b ->
        let second :=
          ensureUpdateBranchExists elapse owner repo (Some octokit) branchName
            baseBranch (world first) in
        completion second = Returned true
        /\ trace second = [(GetRef owner repo (branchRef branchName), None)]
        /\ count is_createRef (trace second) = 0%nat
        /\ count is_deleteRef (trace second) = 0%nat).
Proof.
  split.
  - intros w w1 data Hg r. unfold r. simpl.
    rewrite (ensure_present _ _ _ _ _ _ _ _ _ Hg). simpl. auto.
  - intros Hstable w b first Hfirst second.
    destruct (ensure_with_client_returned elapse owner repo octokit branchName
                baseBranch w b Hfirst) as (_ & w0 & data & Hread).
    destruct (Hstable _ _ _ Hread) as (data' & w2 & Hagain).
    unfold second, first. simpl.
    rewrite (ensure_present _ _ _ _ _ _ _ _ _ Hagain). simpl. auto.
Qed.

(** C8.  When the branch is absent and the read of the base branch
    fails, the function throws the very error of that read, right away,
    and makes no createRef call.  This holds for every error of the base
    read, those with a status other than 404 among them. *)
Theorem base_read_error_is_passed_on
    (w w1 w2 : W) (e baseError : RequestError) :
  getRef octokit owner repo (branchRef branchName) w = (Rejected e, w1) ->
  status_is e 404 = true ->
  getRef octokit owner repo (baseRef baseBranch) w1 = (Rejected baseError, w2) ->
  let r :=
    ensureUpdateBranchExists elapse owner repo (Some octokit) branchName
      baseBranch w in
  completion r = Threw (Rethrown baseError)
  /\ trace r
     = [(GetRef owner repo (branchRef branchName), Some e);
        (GetRef owner repo (baseRef baseBranch), Some baseError)]
  /\ count is_createRef (trace r) = 0%nat.
Proof.
  intros Hg Hs Hb r. unfold r. simpl.
  rewrite (ensure_absent _ _ _ _ _ _ _ _ _ Hg Hs).
  rewrite (base_unreadable _ _ _ _ _ _ _ _ _ Hb). simpl. auto.
Qed.

End Guarantees.

(** ** The guarantees at work *)

Lemma backoff_doubles_until_read_succeeds_witness :
  let missing := Rejected Mock.createNotFoundError in
  let r := Mock.run
    (Mock.mocks [missing; Mock.withSha "base-sha";
                 missing; missing; missing; missing; missing; missing;
                 Mock.withSha "new-branch-sha"]
                [Fulfilled tt]) in
  completion r = Returned true
  /\ delays (trace r) = [500; 1000; 2000; 4000; 8000; 16000].
Proof.
  intros missing r.
  destruct (backoff_doubles_until_read_succeeds Mock.elapse "owner" "repo"
              Mock.octokitMock "test-branch" "main"
              (Mock.mocks [missing; Mock.withSha "base-sha";
                           missing; missing; missing; missing; missing; missing;
                           Mock.withSha "new-branch-sha"]
                          [Fulfilled tt])
              _ _ _ _ _ _ _ _
              eq_refl eq_refl eq_refl eq_refl eq_refl eq_refl)
    as (Hdone & _ & _ & _ & Hdelays & _).
  split; assumption.
Defined.

Lemma gives_up_after_seven_missed_reads_witness :
  let r := Mock.run
    (Mock.mocks_missing [Rejected Mock.createNotFoundError; Mock.withSha "base-sha"]
                        []) in
  exists msg,
    completion r = Threw (NewError msg)
    /\ includes "not accessible after multiple retries" msg
    /\ includes "test-branch" msg.
Proof.
  intros r.
  destruct (gives_up_after_seven_missed_reads Mock.elapse "owner" "repo"
              Mock.octokitMock "test-branch" "main"
              (Mock.mocks_missing
                 [Rejected Mock.createNotFoundError; Mock.withSha "base-sha"] [])
              _ _ _ _ _ _ _ _
              eq_refl eq_refl eq_refl eq_refl eq_refl eq_refl eq_refl)
    as (msg & Hthrown & Hphrase & Hname & _).
  exists msg. repeat split; assumption.
Defined.

Lemma stale_reference_is_deleted_then_creation_retried_witness :
  (let r := Mock.run
     (Mock.mocks [Rejected Mock.createNotFoundError; Mock.withSha "base-sha";
                  Rejected Mock.createNotFoundError; Mock.withSha "new-branch-sha"]
                 [Rejected Mock.conflictError; Fulfilled tt]) in
   exists rest,
     trace r
     = [(GetRef "owner" "repo" "heads/test-branch", Some Mock.createNotFoundError);
        (GetRef "owner" "repo" "heads/main", None);
        (CreateRef "owner" "repo" "refs/heads/test-branch" (Some "base-sha"),
         Some Mock.conflictError);
        (GetRef "owner" "repo" "heads/test-branch", Some Mock.createNotFoundError);
        (DeleteRef "owner" "repo" "refs/heads/test-branch", None);
        (CreateRef "owner" "repo" "refs/heads/test-branch" (Some "base-sha"), None)]
       ++ rest
     /\ count is_createRef rest = 0%nat
     /\ count is_deleteRef rest = 0%nat)
  /\ (let missing := Rejected Mock.createNotFoundError in
      let conflict := Rejected Mock.conflictError in
      let r := Mock.run
        {| Mock.getRef_fn :=
             {| Mock.once := [missing; Mock.withSha "base-sha"; missing; missing];
                Mock.standing := Mock.withSha "existing-sha" |};
           Mock.createRef_fn :=
             {| Mock.once := [conflict; conflict];
                Mock.standing := Fulfilled tt |};
           Mock.deleteRef_fn :=
             {| Mock.once := [Fulfilled tt; Rejected Mock.serverError];
                Mock.standing := Fulfilled tt |} |} in
      count is_deleteRef (trace r) = 2%nat
      /\ completion r = Threw (Rethrown Mock.serverError)).
Proof.
  split.
  - intros r.
    destruct (stale_reference_is_deleted_then_creation_retried Mock.elapse
                "owner" "repo" Mock.octokitMock "test-branch" "main"
                (Mock.mocks [Rejected Mock.createNotFoundError;
                             Mock.withSha "base-sha";
                             Rejected Mock.createNotFoundError;
                             Mock.withSha "new-branch-sha"]
                            [Rejected Mock.conflictError; Fulfilled tt])
                _ _ _ _ _ _ _ _ _ _
                eq_refl eq_refl eq_refl eq_refl eq_refl eq_refl eq_refl eq_refl)
      as [_ Hretry].
    destruct (Hretry eq_refl)
      as (created & w6 & rest & Hcreated & Htrace & Hcreates & _ & Hdeletes & _).
    injection Hcreated as <- <-.
    exists rest. split; [exact Htrace|]. split; [exact Hcreates|].
    apply Hdeletes. intros e' e'' w7 Habs. discriminate Habs.
  - intros missing conflict r.
    destruct (stale_reference_is_deleted_then_creation_retried Mock.elapse
                "owner" "repo" Mock.octokitMock "test-branch" "main"
                {| Mock.getRef_fn :=
                     {| Mock.once :=
                          [missing; Mock.withSha "base-sha"; missing; missing];
                        Mock.standing := Mock.withSha "existing-sha" |};
                   Mock.createRef_fn :=
                     {| Mock.once := [conflict; conflict];
                        Mock.standing := Fulfilled tt |};
                   Mock.deleteRef_fn :=
                     {| Mock.once := [Fulfilled tt; Rejected Mock.serverError];
                        Mock.standing := Fulfilled tt |} |}
                _ _ _ _ _ _ _ _ _ _
                eq_refl eq_refl eq_refl eq_refl eq_refl eq_refl eq_refl eq_refl)
      as [_ Hretry].
    destruct (Hretry eq_refl)
      as (created & w6 & rest & Hcreated & _ & _ & _ & _ & Hagain).
    injection Hcreated as <- <-.
    destruct (Hagain _ _ _ _ _ eq_refl eq_refl eq_refl eq_refl eq_refl)
      as (_ & _ & Hfails).
    destruct (Hfails eq_refl) as (deleteError & Hd2 & Hthrown).
    injection Hd2 as <-.
    split; [reflexivity | exact Hthrown].
Defined.

Lemma store_branch_stays_readable (branchName : string) :
  branch_stays_readable "owner" "repo" Store.octokit branchName.
Proof.
  intros refs data refs1. unfold Store.octokit. cbn [getRef].
  destruct (Store.lookup ("refs/" ++ branchRef branchName) refs) as [hash|] eqn:Hl;
    intros [= <- <-].
  rewrite Hl. eauto.
Defined.

Lemma existing_branch_is_left_alone_witness :
  (let r := Store.run [("refs/heads/test-branch", "sha-1");
                       ("refs/heads/main", "base-sha")] in
   completion r = Returned true
   /\ count is_createRef (trace r) = 0%nat
   /\ count is_deleteRef (trace r) = 0%nat)
  /\ (let first := Store.run [("refs/heads/main", "base-sha")] in
      let second := Store.run (world first) in
      count is_createRef (trace first) = 1%nat
      /\ completion second = Returned true
      /\ count is_createRef (trace second) = 0%nat
      /\ count is_deleteRef (trace second) = 0%nat).
Proof.
  destruct (existing_branch_is_left_alone Store.elapse "owner" "repo"
              Store.octokit "test-branch" "main") as [Hexists Htwice].
  split.
  - destruct (Hexists [("refs/heads/test-branch", "sha-1");
                       ("refs/heads/main", "base-sha")]%string _ _ eq_refl)
      as (Hdone & _ & _ & Hcreates & Hdeletes).
    repeat split; assumption.
  - destruct (Htwice (store_branch_stays_readable "test-branch")
                [("refs/heads/main", "base-sha")]%string true eq_refl)
      as (Hdone & _ & Hcreates & Hdeletes).
    split; [reflexivity|]. repeat split; assumption.
Defined.

Lemma base_read_error_is_passed_on_witness :
  let r := Mock.run
    (Mock.mocks [Rejected Mock.createNotFoundError; Rejected Mock.serverError] []) in
  completion r = Threw (Rethrown Mock.serverError)
  /\ count is_createRef (trace r) = 0%nat.
Proof.
  intros r.
  destruct (base_read_error_is_passed_on Mock.elapse "owner" "repo"
              Mock.octokitMock "test-branch" "main"
              (Mock.mocks [Rejected Mock.createNotFoundError;
                           Rejected Mock.serverError] [])
              _ _ _ _ eq_refl eq_refl eq_refl)
    as (Hthrown & _ & Hcreates).
  split; assumption.
Defined.

(** ** Where the function departs from what is said of it *)

(** C1.  On the clean creation path the function makes the four calls
    expected of it, one createRef among them, and then returns [true]:
    the value it returns for a branch that already existed, where its
    documentation announces [false] for a branch it created. *)
Theorem created_branch_is_reported_as_existing :
  let created := Mock.run
    (Mock.mocks [Rejected Mock.createNotFoundError; Mock.withSha "base-sha";
                 Mock.withSha "new-branch-sha"]
                [Fulfilled tt]) in
  let existing := Mock.run (Mock.mocks [] []) in
  trace created =
    [(GetRef "owner" "repo" "heads/test-branch", Some Mock.createNotFoundError);
     (GetRef "owner" "repo" "heads/main", None);
     (CreateRef "owner" "repo" "refs/heads/test-branch" (Some "base-sha"), None);
     (GetRef "owner" "repo" "heads/test-branch", None)]
  /\ count is_createRef (trace existing) = 0%nat
  /\ completion created = Returned true
  /\ completion created = completion existing.
Proof. vm_compute. auto. Qed.

(** C2.  A verification read that fails with status 500 ends the loop at
    once, but the error thrown is the one built on lines 92-94, not the
    error of the read. *)
Theorem verification_error_is_replaced :
  let r := Mock.run
    (Mock.mocks [Rejected Mock.createNotFoundError; Mock.withSha "base-sha";
                 Rejected Mock.serverError]
                [Fulfilled tt]) in
  trace r =
    [(GetRef "owner" "repo" "heads/test-branch", Some Mock.createNotFoundError);
     (GetRef "owner" "repo" "heads/main", None);
     (CreateRef "owner" "repo" "refs/heads/test-branch" (Some "base-sha"), None);
     (GetRef "owner" "repo" "heads/test-branch", Some Mock.serverError)]
  /\ completion r =
       Threw (NewError
         "Branch test-branch was created but is not accessible after multiple retries")
  /\ completion r <> Threw (Rethrown Mock.serverError).
Proof. vm_compute. repeat split. discriminate. Qed.

(** C3, as stated, fails on the run of the test "deletes stale reference
    and retries": two createRef calls are made. *)
Lemma stale_cleanup_creates_twice :
  let r := Mock.run
    (Mock.mocks [Rejected Mock.createNotFoundError; Mock.withSha "base-sha";
                 Rejected Mock.createNotFoundError; Mock.withSha "new-branch-sha"]
                [Rejected Mock.conflictError; Fulfilled tt]) in
  count is_createRef (trace r) = 2%nat
  /\ ~ ((count is_createRef (trace r) <= 1)%nat
        /\ (count is_deleteRef (trace r) <= 1)%nat).
Proof. vm_compute. split; [reflexivity|]. intros [H _]. lia. Qed.

(** C6, as stated, fails when the retried createRef meets a stale
    conflict as well: the first createRef fails with 422 and the read
    after it with 404, yet two deleteRef calls are made, and no createRef
    follows the second one. *)
Lemma stale_conflict_twice_deletes_twice :
  let r := Mock.run
    (Mock.mocks [Rejected Mock.createNotFoundError; Mock.withSha "base-sha";
                 Rejected Mock.createNotFoundError;
                 Rejected Mock.createNotFoundError]
                [Rejected Mock.conflictError; Rejected Mock.conflictError]) in
  trace r =
    [(GetRef "owner" "repo" "heads/test-branch", Some Mock.createNotFoundError);
     (GetRef "owner" "repo" "heads/main", None);
     (CreateRef "owner" "repo" "refs/heads/test-branch" (Some "base-sha"),
      Some Mock.conflictError);
     (GetRef "owner" "repo" "heads/test-branch", Some Mock.createNotFoundError);
     (DeleteRef "owner" "repo" "refs/heads/test-branch", None);
     (CreateRef "owner" "repo" "refs/heads/test-branch" (Some "base-sha"),
      Some Mock.conflictError);
     (GetRef "owner" "repo" "heads/test-branch", Some Mock.createNotFoundError);
     (DeleteRef "owner" "repo" "refs/heads/test-branch", None)]
  /\ completion r =
       Threw (NewError
         "Unable to create branch test-branch after cleaning up conflicting references.")
  /\ ~ (count is_deleteRef (trace r) = 1%nat).
Proof. vm_compute. repeat split. discriminate. Qed.

(** The bounds of C10 are reached: eleven reads on one run, two deletes
    on another. *)
Example eleven_reads :
  let missing := Rejected Mock.createNotFoundError in
  let r := Mock.run
    (Mock.mocks [missing; Mock.withSha "base-sha";
                 missing; Mock.withSha "other-sha";
                 missing; missing; missing; missing; missing; missing;
                 Mock.withSha "other-sha"]
                [Rejected Mock.conflictError; Rejected Mock.conflictError]) in
  completion r = Returned true
  /\ count is_getRef (trace r) = 11%nat
  /\ count is_createRef (trace r) = 2%nat
  /\ total_delay (trace r) = 31500.
Proof. vm_compute. auto. Qed.

(** ** More on traces *)

Lemma follows_nil (trigger : Event -> bool) (cause : Event -> Prop) :
  follows trigger cause [].
Proof. intros [|x before] t after H; discriminate. Qed.

Lemma follows_app (trigger : Event -> bool) (cause : Event -> Prop)
    (tr1 tr2 : list Event) :
  follows trigger cause tr1 ->
  follows trigger cause tr2 ->
  follows trigger cause (tr1 ++ tr2).
Proof.
  intros H1 H2 before t after Heq Ht.
  apply app_eq_app in Heq. destruct Heq as [l [[Htr1 Hrest] | [Hbefore Htr2]]].
  - destruct l as [|x l].
    + simpl in Hrest.
      destruct (H2 [] t after (eq_sym Hrest) Ht) as (before' & c & Hnil & _).
      destruct before'; discriminate.
    + injection Hrest as <- _. exact (H1 before t l Htr1 Ht).
  - destruct (H2 l t after Htr2 Ht) as (before' & c & -> & Hc).
    exists (tr1 ++ before'), c. split; [|exact Hc].
    now rewrite Hbefore, app_assoc.
Qed.

Lemma follows_compositional (trigger : Event -> bool) (cause : Event -> Prop) :
  compositional (follows trigger cause).
Proof. split; [apply follows_nil | apply follows_app]. Qed.

Lemma follows_no_trigger (trigger : Event -> bool) (cause : Event -> Prop)
    (tr : list Event) :
  count trigger tr = 0%nat -> follows trigger cause tr.
Proof.
  intros Hc before t after -> Ht. exfalso.
  rewrite count_app in Hc. unfold count in Hc. simpl in Hc.
  rewrite Ht in Hc. simpl in Hc. lia.
Qed.

Lemma follows_pair (trigger : Event -> bool) (cause : Event -> Prop)
    (c t : Event) :
  cause c -> trigger c = false -> follows trigger cause [c; t].
Proof.
  intros Hc Hnot before t' after Heq Ht.
  destruct before as [|x1 [|x2 before]]; simpl in Heq.
  - injection Heq as <- _. congruence.
  - injection Heq as <- _ _. now exists [], c.
  - injection Heq as _ _ Habs. destruct before; discriminate.
Qed.

Lemma count_suffix_zero (kind : Event -> bool) (tr1 tr2 : list Event) :
  count kind (tr1 ++ tr2) = 0%nat -> count kind tr2 = 0%nat.
Proof. rewrite count_app. lia. Qed.

(** A trace whose waits all lie in a part without create and delete
    calls has no such call after a wait. *)
Lemma no_mutation_after_wait_phases (pre post : list Event) :
  count is_setTimeout pre = 0%nat ->
  count is_createRef post = 0%nat ->
  count is_deleteRef post = 0%nat ->
  no_mutation_after_wait (pre ++ post).
Proof.
  intros Hpre Hc Hd before t after Heq Ht.
  apply app_eq_app in Heq. destruct Heq as [l [[Hp Hrest] | [_ Hpost]]].
  - destruct l as [|x l].
    + simpl in Hrest. rewrite <- Hrest in Hc, Hd.
      split; [exact (count_suffix_zero _ [t] after Hc)
             | exact (count_suffix_zero _ [t] after Hd)].
    + injection Hrest as <- _. exfalso.
      rewrite Hp, count_app in Hpre. unfold count in Hpre. simpl in Hpre.
      rewrite Ht in Hpre. simpl in Hpre. lia.
  - rewrite Hpost in Hc, Hd.
    apply count_suffix_zero in Hc, Hd.
    split; [exact (count_suffix_zero _ [t] after Hc)
           | exact (count_suffix_zero _ [t] after Hd)].
Qed.

Lemma doubling_from_start (n : nat) :
  (n <= 6)%nat ->
  doubling n 0 = firstn n [500; 1000; 2000; 4000; 8000; 16000].
Proof.
  intros Hn.
  destruct n as [|[|[|[|[|[|[|n]]]]]]]; try lia; reflexivity.
Qed.

Lemma count_getRef_backoff_schedule (owner repo branchName : string)
    (errors : list RequestError) :
  forall attempt : Z,
    count is_getRef (backoff_schedule owner repo branchName attempt errors)
    = List.length errors.
Proof.
  induction errors as [|e errors IH]; intros attempt; [reflexivity|].
  specialize (IH (attempt + 1)). unfold count in *. simpl. now rewrite IH.
Qed.

Lemma total_delay_backoff_schedule (owner repo branchName : string)
    (errors : list RequestError) :
  forall attempt : Z,
    0 <= attempt ->
    total_delay (backoff_schedule owner repo branchName attempt errors)
    = VERIFICATION_BASE_DELAY_MS
      * (2 ^ (attempt + Z.of_nat (List.length errors)) - 2 ^ attempt).
Proof.
  induction errors as [|e errors IH]; intros attempt Hattempt.
  - simpl. rewrite Z.add_0_r. lia.
  - cbn [backoff_schedule total_delay List.length]. rewrite IH by lia.
    replace (attempt + Z.of_nat (S (List.length errors)))
      with (attempt + 1 + Z.of_nat (List.length errors)) by lia.
    rewrite (Z.pow_add_r 2 attempt 1) by lia. lia.
Qed.

(** ** The conduct of the function, for every client *)

Section Conduct.

Context {W : Type}.
Variable elapse : Z -> W -> W.
Variables owner repo : string.

Ltac attempt_cases :=
  unfold creation_attempt, verification_attempt, call_createRef, call_getRef,
    call_deleteRef, await, setTimeout, request, bind, ret, throw;
  simpl;
  repeat (match goal with
          | |- context [match ?op with (_, _) => _ end] =>
              destruct op as [[?|?] ?] eqn:?
          | |- context [if ?b then _ else _] => destruct b eqn:?
          end; simpl).

Ltac whole_trace :=
  match goal with
  | |- exists pre post, ?tr = _ /\ _ =>
      exists tr, []; split; [symmetry; apply app_nil_r|]
  end.

(** The trace of the function falls into two parts: the calls made up to
    the end of the creation phase, without any wait, and the trace of the
    verification loop, when the function gets that far. *)
Lemma ensure_with_client_phases (octokit : Octokit (W := W))
    (branchName baseBranch : string) (w : W) :
  exists pre post,
    trace (ensure_with_client elapse owner repo octokit branchName baseBranch w)
    = pre ++ post
    /\ count is_setTimeout pre = 0%nat
    /\ (post = []
        \/ exists w',
            post = trace (verification elapse owner repo octokit branchName w')).
Proof.
  unfold ensure_with_client. rewrite trace_bind.
  unfold call_getRef at 1. rewrite request_trace.
  destruct (completion _) as [[data|e]|t].
  - whole_trace.
    split; [reflexivity | left; reflexivity].
  - destruct (negb (status_is e 404)).
    + whole_trace.
      split; [reflexivity | left; reflexivity].
    + unfold create_and_verify. rewrite trace_bind, await_trace.
      destruct (completion (await _ _ _)) as [base|t].
      * rewrite trace_bind.
        pose proof (createBranchWithCleanup_counts owner repo octokit branchName
                      (resolveRefSha base)
                      (world (await (GetRef owner repo (baseRef baseBranch))
                                (getRef octokit owner repo (baseRef baseBranch))
                                (world (call_getRef owner repo octokit
                                          (branchRef branchName) w)))))
          as (_ & _ & _ & Hquiet).
        destruct (completion (createBranchWithCleanup _ _ _ _ _ _)) as [u|t].
        -- match goal with
           | |- exists pre post, ?a ++ ?b ++ ?c ++ ?d = _ /\ _ =>
               exists (a ++ b ++ c), d
           end.
           split; [now rewrite <- !app_assoc|].
           split; [|right; eexists; reflexivity].
           rewrite !count_app, Hquiet. reflexivity.
        -- whole_trace.
           split; [|left; reflexivity].
           rewrite !count_app, Hquiet. reflexivity.
      * whole_trace.
        split; [reflexivity | left; reflexivity].
  - whole_trace.
    split; [reflexivity | left; reflexivity].
Qed.

Lemma verification_attempt_waits (octokit : Octokit (W := W))
    (branchName : string) (attempt : Z) (w : W) :
  follows is_setTimeout (missed_read owner repo branchName)
    (trace (verification_attempt elapse owner repo octokit branchName attempt w)).
Proof.
  destruct (verification_attempt_cases elapse owner repo octokit branchName
              attempt w)
    as [(d & w' & _ & ->) | [(e & w' & _ & Hs & _ & ->) | (e & w' & _ & _ & ->)]];
    simpl.
  - apply follows_no_trigger. reflexivity.
  - apply follows_pair; [|reflexivity].
    exists e. split; [reflexivity|]. now apply status_is_true.
  - apply follows_no_trigger. reflexivity.
Qed.

(** The function suspends only in its verification loop, and only to back
    off: every wait comes immediately after a read of the branch that
    reported 404. *)
Theorem waits_only_after_missed_reads
    (client : option Octokit) (branchName baseBranch : string) (w : W) :
  follows is_setTimeout (missed_read owner repo branchName)
    (trace (ensureUpdateBranchExists elapse owner repo client branchName
              baseBranch w)).
Proof.
  destruct client as [octokit|]; simpl; [|apply follows_nil].
  apply (ensure_with_client_compositional elapse owner repo octokit branchName
           baseBranch).
  - apply follows_compositional.
  - intros o. apply follows_no_trigger. reflexivity.
  - intros o. apply follows_no_trigger. reflexivity.
  - intros. apply follows_no_trigger.
    apply creation_attempt_setTimeout.
  - intros. apply verification_attempt_waits.
Qed.

(** Once the function has started to wait it only reads: no createRef and
    no deleteRef call is made after a wait. *)
Theorem nothing_mutated_after_wait
    (client : option Octokit) (branchName baseBranch : string) (w : W) :
  no_mutation_after_wait
    (trace (ensureUpdateBranchExists elapse owner repo client branchName
              baseBranch w)).
Proof.
  destruct client as [octokit|]; simpl.
  - destruct (ensure_with_client_phases octokit branchName baseBranch w)
      as (pre & post & -> & Hpre & Hpost).
    apply no_mutation_after_wait_phases; [exact Hpre | |];
      destruct Hpost as [-> | [w' ->]]; try reflexivity;
      unfold verification;
      apply (verification_from_counts elapse owner repo octokit branchName).
  - intros [|x before] t after H; discriminate.
Qed.

Lemma verification_from_delays (octokit : Octokit (W := W))
    (branchName : string) (remaining : nat) :
  forall (attempt : Z) (w : W),
    exists n : nat,
      (n = 0%nat \/ attempt + Z.of_nat n <= MAX_VERIFICATION_ATTEMPTS - 1)
      /\ delays (trace (verification_from elapse owner repo octokit branchName
                          remaining attempt w))
         = doubling n attempt.
Proof.
  unfold verification_from.
  induction remaining as [|remaining IH]; intros attempt w.
  - exists 0%nat. split; [left|]; reflexivity.
  - simpl. rewrite trace_bind, delays_app.
    destruct (verification_attempt_cases elapse owner repo octokit branchName
                attempt w)
      as [(d & w' & _ & ->) | [(e & w' & _ & _ & Hlt & ->) | (e & w' & _ & _ & ->)]];
      cbn [completion trace world].
    + exists 0%nat. split; [left|]; reflexivity.
    + destruct (IH (attempt + 1) (elapse (verification_delay attempt) w'))
        as (n & Hn & ->).
      exists (S n). split; [right; lia|]. reflexivity.
    + exists 0%nat. split; [left|]; reflexivity.
Qed.

(** Whatever the client answers, the waits of one call are the first n
    delays of the schedule 500, 1000, 2000, 4000, 8000, 16000 ms, in that
    order, for some n from 0 to 6. *)
Theorem waits_are_a_prefix_of_the_schedule
    (client : option Octokit) (branchName baseBranch : string) (w : W) :
  exists n : nat,
    (n <= 6)%nat
    /\ delays (trace (ensureUpdateBranchExists elapse owner repo client
                        branchName baseBranch w))
       = firstn n [500; 1000; 2000; 4000; 8000; 16000].
Proof.
  destruct client as [octokit|]; simpl.
  - destruct (ensure_with_client_phases octokit branchName baseBranch w)
      as (pre & post & -> & Hpre & Hpost).
    rewrite delays_app, (delays_no_setTimeout _ Hpre). simpl.
    destruct Hpost as [-> | [w' ->]].
    + exists 0%nat. split; [lia | reflexivity].
    + unfold verification.
      destruct (verification_from_delays octokit branchName
                  (Z.to_nat MAX_VERIFICATION_ATTEMPTS) 0 w') as (n & Hn & ->).
      assert (Hle : (n <= 6)%nat)
        by (unfold MAX_VERIFICATION_ATTEMPTS in Hn; lia).
      exists n. split; [exact Hle | now apply doubling_from_start].
  - exists 0%nat. split; [lia | reflexivity].
Qed.

(** *** What the function returns and throws *)

Lemma verification_from_returned_trace (octokit : Octokit (W := W))
    (branchName : string) (remaining : nat) :
  forall (attempt : Z) (w : W) (b : bool),
    attempt + Z.of_nat remaining = MAX_VERIFICATION_ATTEMPTS ->
    (0 < remaining)%nat ->
    completion (verification_from elapse owner repo octokit branchName
                  remaining attempt w) = Returned b ->
    exists before,
      trace (verification_from elapse owner repo octokit branchName
               remaining attempt w)
      = before ++ [(GetRef owner repo (branchRef branchName), None)].
Proof.
  unfold verification_from.
  induction remaining as [|remaining IH]; intros attempt w b Hsum Hpos; [lia|].
  simpl. rewrite completion_bind, trace_bind.
  destruct (verification_attempt_cases elapse owner repo octokit branchName
              attempt w)
    as [(d & w' & _ & ->) | [(e & w' & _ & _ & Hlt & ->) | (e & w' & _ & _ & ->)]];
    cbn [completion trace world].
  - intros _. now exists [].
  - intros Hret.
    destruct (IH (attempt + 1) (elapse (verification_delay attempt) w') b)
      as [before ->]; try assumption;
      try (unfold MAX_VERIFICATION_ATTEMPTS in *; lia).
    eexists. rewrite app_assoc. reflexivity.
  - discriminate.
Qed.

(** The function never reports success on trust: when it returns, the
    value is [true] and the last call it made is a read of the branch that
    succeeded.  In particular the [return true] after the verification
    loop is never reached. *)
Theorem returns_only_after_successful_read
    (client : option Octokit) (branchName baseBranch : string) (w : W)
    (b : bool) :
  completion (ensureUpdateBranchExists elapse owner repo client branchName
                baseBranch w) = Returned b ->
  b = true
  /\ exists before,
      trace (ensureUpdateBranchExists elapse owner repo client branchName
               baseBranch w)
      = before ++ [(GetRef owner repo (branchRef branchName), None)].
Proof.
  destruct client as [octokit|]; simpl; [|discriminate].
  intros Hret.
  split; [exact (proj1 (ensure_with_client_returned _ _ _ _ _ _ _ _ Hret))|].
  revert Hret.
  destruct (getRef octokit owner repo (branchRef branchName) w)
    as [[data|e] w1] eqn:Hg.
  - rewrite (ensure_present _ _ _ _ _ _ _ _ _ Hg). simpl. intros _. now exists [].
  - destruct (status_is e 404) eqn:Hs.
    + rewrite (ensure_absent _ _ _ _ _ _ _ _ _ Hg Hs).
      unfold preceded. cbn [completion trace].
      unfold create_and_verify.
      rewrite completion_bind, trace_bind.
      destruct (completion (await _ _ w1)) as [base|t]; [|discriminate].
      rewrite completion_bind, trace_bind.
      destruct (completion (createBranchWithCleanup _ _ _ _ _ _)) as [u|t];
        [|discriminate].
      unfold verification. intros Hret.
      assert (Hsum : 0 + Z.of_nat (Z.to_nat MAX_VERIFICATION_ATTEMPTS)
                     = MAX_VERIFICATION_ATTEMPTS) by reflexivity.
      assert (Hpos : (0 < Z.to_nat MAX_VERIFICATION_ATTEMPTS)%nat)
        by (unfold MAX_VERIFICATION_ATTEMPTS; simpl; lia).
      destruct (verification_from_returned_trace octokit branchName
                  _ _ _ _ Hsum Hpos Hret) as [before ->].
      eexists. rewrite !app_assoc. reflexivity.
    + rewrite (ensure_unreadable _ _ _ _ _ _ _ _ _ Hg Hs). discriminate.
Qed.

Lemma thrown_accounted_bind {A B : Type}
    (from : Call -> RequestError -> Prop) (built : string -> Prop)
    (m : @Async W A) (k : A -> @Async W B) (w : W) :
  thrown_accounted from built (m w) ->
  (forall a w', thrown_accounted from built (k a w')) ->
  thrown_accounted from built (bind m k w).
Proof.
  unfold thrown_accounted. intros Hm Hk.
  rewrite completion_bind, trace_bind.
  destruct (completion (m w)) as [a|t].
  - specialize (Hk a (world (m w))).
    destruct (completion (k a (world (m w)))) as [b|[e|msg]]; auto.
    destruct Hk as (before & c & -> & Hc).
    exists (trace (m w) ++ before), c. now rewrite app_assoc.
  - destruct t as [e|msg]; [|exact Hm].
    destruct Hm as (before & c & -> & Hc).
    exists before, c. now rewrite app_nil_r.
Qed.

Lemma thrown_accounted_for_attempts {A : Type}
    (from : Call -> RequestError -> Prop) (built : string -> Prop)
    (body : Z -> @Async W (Step A)) (after : @Async W A) :
  (forall attempt w, thrown_accounted from built (body attempt w)) ->
  (forall w, thrown_accounted from built (after w)) ->
  forall remaining attempt w,
    thrown_accounted from built (for_attempts remaining attempt body after w).
Proof.
  intros Hbody Hafter remaining.
  induction remaining as [|remaining IH]; intros attempt w; simpl.
  - apply Hafter.
  - apply thrown_accounted_bind; [apply Hbody|].
    intros [|a] w'; [apply IH | exact I].
Qed.

Lemma thrown_accounted_preceded {A : Type}
    (from : Call -> RequestError -> Prop) (built : string -> Prop)
    (tr : list Event) (r : Run (W := W) A) :
  thrown_accounted from built r ->
  thrown_accounted from built (preceded tr r).
Proof.
  unfold thrown_accounted, preceded. cbn [completion trace].
  destruct (completion r) as [a|[e|msg]]; auto.
  intros (before & c & -> & Hc). exists (tr ++ before), c.
  now rewrite app_assoc.
Qed.

Lemma creation_attempt_thrown (octokit : Octokit (W := W))
    (branchName baseBranch : string) (built : string -> Prop)
    (baseSha : option string) (attempt : Z) (w : W) :
  thrown_accounted (rethrown_from owner repo branchName baseBranch) built
    (creation_attempt owner repo octokit branchName baseSha attempt w).
Proof.
  unfold thrown_accounted, rethrown_from. attempt_cases; auto;
    repeat match goal with
    | H : negb _ = true |- _ => apply negb_true_iff in H
    | H : _ || _ = false |- _ => apply orb_false_iff in H as [? ?]
    end.
  - exists [], (CreateRef owner repo (fullBranchRef branchName) baseSha).
    split; [reflexivity|]. right; right; left. eauto.
  - eexists [_], (GetRef owner repo (branchRef branchName)).
    split; [reflexivity|]. left. auto.
  - eexists [_; _], (DeleteRef owner repo (fullBranchRef branchName)).
    split; [reflexivity|]. right; right; right. auto.
Qed.

Lemma ensure_with_client_thrown (octokit : Octokit (W := W))
    (branchName baseBranch : string) (w : W) :
  thrown_accounted (rethrown_from owner repo branchName baseBranch)
    (fun msg => msg = unable_to_create_message branchName
                \/ msg = not_accessible_message branchName)
    (ensure_with_client elapse owner repo octokit branchName baseBranch w).
Proof.
  destruct (getRef octokit owner repo (branchRef branchName) w)
    as [[data|e] w1] eqn:Hg.
  - rewrite (ensure_present _ _ _ _ _ _ _ _ _ Hg). exact I.
  - destruct (status_is e 404) eqn:Hs.
    + rewrite (ensure_absent _ _ _ _ _ _ _ _ _ Hg Hs).
      apply thrown_accounted_preceded.
      unfold create_and_verify.
      apply thrown_accounted_bind.
      { unfold thrown_accounted, rethrown_from. attempt_cases; auto.
        exists [], (GetRef owner repo (baseRef baseBranch)). auto. }
      intros base w2.
      apply thrown_accounted_bind.
      { unfold createBranchWithCleanup.
        apply thrown_accounted_for_attempts.
        - intros. apply creation_attempt_thrown.
        - intros w3. left. reflexivity. }
      intros _ w3. unfold verification, verification_from.
      apply thrown_accounted_for_attempts; [|intros w4; exact I].
      intros attempt w4. unfold thrown_accounted.
      destruct (verification_attempt_cases elapse owner repo octokit branchName
                  attempt w4)
        as [(d & w' & _ & ->) | [(e' & w' & _ & _ & _ & ->) | (e' & w' & _ & _ & ->)]];
        simpl; auto.
    + rewrite (ensure_unreadable _ _ _ _ _ _ _ _ _ Hg Hs).
      exists [], (GetRef owner repo (branchRef branchName)).
      split; [reflexivity|]. left. auto.
Qed.

(** An error of the client that the function throws on is the error of
    the last call it made, and that call is a read of the branch that
    failed with a status other than 404, the read of the base, a createRef
    that failed with a status other than 422, or a deleteRef that failed
    with a status other than 404 and 422. *)
Theorem rethrown_error_is_the_last_reply
    (client : option Octokit) (branchName baseBranch : string) (w : W)
    (e : RequestError) :
  completion (ensureUpdateBranchExists elapse owner repo client branchName
                baseBranch w) = Threw (Rethrown e) ->
  exists before c,
    trace (ensureUpdateBranchExists elapse owner repo client branchName
             baseBranch w)
    = before ++ [(c, Some e)]
    /\ rethrown_from owner repo branchName baseBranch c e.
Proof.
  destruct client as [octokit|]; simpl; [|discriminate].
  intros Hthrown.
  pose proof (ensure_with_client_thrown octokit branchName baseBranch w) as H.
  unfold thrown_accounted in H. now rewrite Hthrown in H.
Qed.

(** The errors the function builds itself are three: the one for a
    missing client, and, with a client, the one for a creation that kept
    meeting stale references and the one for a branch that never became
    readable; the last two name the branch. *)
Theorem built_errors
    (client : option Octokit) (branchName baseBranch : string) (w : W)
    (msg : string) :
  completion (ensureUpdateBranchExists elapse owner repo client branchName
                baseBranch w) = Threw (NewError msg) ->
  (client = None /\ msg = missing_client_message)
  \/ (client <> None
      /\ (msg = unable_to_create_message branchName
          \/ msg = not_accessible_message branchName)
      /\ includes branchName msg).
Proof.
  destruct client as [octokit|]; simpl.
  - intros Hthrown. right. split; [discriminate|].
    pose proof (ensure_with_client_thrown octokit branchName baseBranch w) as H.
    unfold thrown_accounted in H. rewrite Hthrown in H.
    split; [exact H|].
    destruct H as [-> | ->].
    + exists "Unable to create branch "%string,
        " after cleaning up conflicting references."%string.
      reflexivity.
    + exists "Branch "%string,
        " was created but is not accessible after multiple retries"%string.
      reflexivity.
  - intros [= <-]. left. split; reflexivity.
Qed.

End Conduct.

(** ** The other paths through the function *)

Section Paths.

Context {W : Type}.
Variable elapse : Z -> W -> W.
Variables owner repo : string.

(** The function creates only what it has found missing: when a
    createRef call is made, the first read of the branch reported 404 and
    the read of the base succeeded, and these two reads are the first two
    calls. *)
Theorem creation_only_after_missing_branch
    (client : option Octokit) (branchName baseBranch : string) (w : W) :
  (0 < count is_createRef
         (trace (ensureUpdateBranchExists elapse owner repo client branchName
                   baseBranch w)))%nat ->
  exists octokit e w1 base w2 rest,
    client = Some octokit
    /\ getRef octokit owner repo (branchRef branchName) w = (Rejected e, w1)
    /\ status e = Some 404
    /\ getRef octokit owner repo (baseRef baseBranch) w1 = (Fulfilled base, w2)
    /\ trace (ensureUpdateBranchExists elapse owner repo client branchName
                baseBranch w)
       = (GetRef owner repo (branchRef branchName), Some e)
           :: (GetRef owner repo (baseRef baseBranch), None)
           :: rest.
Proof.
  destruct client as [octokit|]; simpl; [|unfold count; simpl; lia].
  destruct (getRef octokit owner repo (branchRef branchName) w)
    as [[data|e] w1] eqn:Hg.
  - rewrite (ensure_present _ _ _ _ _ _ _ _ _ Hg). unfold count. simpl. lia.
  - destruct (status_is e 404) eqn:Hs.
    + rewrite (ensure_absent _ _ _ _ _ _ _ _ _ Hg Hs).
      destruct (getRef octokit owner repo (baseRef baseBranch) w1)
        as [[base|e'] w2] eqn:Hb.
      * rewrite (base_readable _ _ _ _ _ _ _ _ _ Hb). intros _.
        exists octokit, e, w1, base, w2. eexists.
        repeat split; try reflexivity; try assumption.
        now apply status_is_true.
      * rewrite (base_unreadable _ _ _ _ _ _ _ _ _ Hb).
        unfold count. simpl. lia.
    + rewrite (ensure_unreadable _ _ _ _ _ _ _ _ _ Hg Hs).
      unfold count. simpl. lia.
Qed.

Variable octokit : Octokit (W := W).
Variables branchName baseBranch : string.





(** A stale conflict in the last iteration leaves the loop, and the
    function with it, by the error of lines 173-175. *)
Lemma creation_last_attempt_stale (baseSha : option string) (attempt : Z)
    (w5 w6 w7 w8 : W) (e e' : RequestError) (deleted : Settled unit) :
  createRef octokit owner repo (fullBranchRef branchName) baseSha w5
  = (Rejected e, w6) ->
  status_is e 422 = true ->
  getRef octokit owner repo (branchRef branchName) w6 = (Rejected e', w7) ->
  status_is e' 404 = true ->
  deleteRef octokit owner repo (fullBranchRef branchName) w7 = (deleted, w8) ->
  tolerated deleted = true ->
  for_attempts 1 attempt
    (creation_attempt owner repo octokit branchName baseSha)
    (throw (NewError (unable_to_create_message branchName))) w5
  = {| completion := Threw (NewError (unable_to_create_message branchName));
       world := w8;
       trace :=
         [(CreateRef owner repo (fullBranchRef branchName) baseSha, Some e);
          (GetRef owner repo (branchRef branchName), Some e');
          (DeleteRef owner repo (fullBranchRef branchName), failure deleted)] |}.
Proof.
  intros Hc Hs Hg Hs' Hd Ht. cbn [for_attempts].
  unfold creation_attempt, call_createRef, call_getRef, call_deleteRef,
    request, bind, ret, throw. simpl.
  rewrite Hc. simpl. rewrite Hs. simpl. rewrite Hg. simpl. rewrite Hs'. simpl.
  rewrite Hd. destruct deleted as [u|de]; simpl in *; [reflexivity|].
  now rewrite Ht.
Qed.

(** When the first read of the branch fails with a status other than
    404, the function throws the very error of that read and makes no
    other call: the base is not read and nothing is created. *)
Theorem existence_check_error_is_passed_on (w w1 : W) (e : RequestError) :
  getRef octokit owner repo (branchRef branchName) w = (Rejected e, w1) ->
  status_is e 404 = false ->
  ensureUpdateBranchExists elapse owner repo (Some octokit) branchName
    baseBranch w
  = {| completion := Threw (Rethrown e);
       world := w1;
       trace := [(GetRef owner repo (branchRef branchName), Some e)] |}.
Proof. intros Hg Hs. simpl. exact (ensure_unreadable _ _ _ _ _ _ _ _ _ Hg Hs). Qed.




(** Creation gives up after its second attempt.  When both createRef
    calls fail with status 422, each followed by a read of the branch that
    reports 404 and by a deleteRef that succeeds or fails with status 404
    or 422, the function throws an error of its own that names the branch,
    after these eight calls; the branch is not read again. *)
Theorem creation_gives_up_after_two_stale_conflicts
    (w w1 w2 w3 w4 w5 w6 w7 w8 : W)
    (e c1 g1 c2 g2 : RequestError) (base : RefData) (d1 d2 : Settled unit) :
  getRef octokit owner repo (branchRef branchName) w = (Rejected e, w1) ->
  status_is e 404 = true ->
  getRef octokit owner repo (baseRef baseBranch) w1 = (Fulfilled base, w2) ->
  createRef octokit owner repo (fullBranchRef branchName) (resolveRefSha base) w2
  = (Rejected c1, w3) ->
  status_is c1 422 = true ->
  getRef octokit owner repo (branchRef branchName) w3 = (Rejected g1, w4) ->
  status_is g1 404 = true ->
  deleteRef octokit owner repo (fullBranchRef branchName) w4 = (d1, w5) ->
  tolerated d1 = true ->
  createRef octokit owner repo (fullBranchRef branchName) (resolveRefSha base) w5
  = (Rejected c2, w6) ->
  status_is c2 422 = true ->
  getRef octokit owner repo (branchRef branchName) w6 = (Rejected g2, w7) ->
  status_is g2 404 = true ->
  deleteRef octokit owner repo (fullBranchRef branchName) w7 = (d2, w8) ->
  tolerated d2 = true ->
  ensureUpdateBranchExists elapse owner repo (Some octokit) branchName
    baseBranch w
  = {| completion := Threw (NewError (unable_to_create_message branchName));
       world := w8;
       trace :=
         [(GetRef owner repo (branchRef branchName), Some e);
          (GetRef owner repo (baseRef baseBranch), None);
          (CreateRef owner repo (fullBranchRef branchName) (resolveRefSha base),
           Some c1);
          (GetRef owner repo (branchRef branchName), Some g1);
          (DeleteRef owner repo (fullBranchRef branchName), failure d1);
          (CreateRef owner repo (fullBranchRef branchName) (resolveRefSha base),
           Some c2);
          (GetRef owner repo (branchRef branchName), Some g2);
          (DeleteRef owner repo (fullBranchRef branchName), failure d2)] |}
  /\ includes branchName (unable_to_create_message branchName).
Proof.
  intros Hg Hs Hb Hc1 Hsc1 Hg1 Hsg1 Hd1 Ht1 Hc2 Hsc2 Hg2 Hsg2 Hd2 Ht2.
  split.
  - simpl.
    rewrite (ensure_absent _ _ _ _ _ _ _ _ _ Hg Hs).
    rewrite (base_readable _ _ _ _ _ _ _ _ _ Hb).
    pose proof (creation_retries owner repo octokit branchName _ _ _ _ _ _ _ _
                  Hc1 Hsc1 Hg1 Hsg1 Hd1 Ht1) as Hcr.
    rewrite (creation_last_attempt_stale _ 1 _ _ _ _ _ _ _
               Hc2 Hsc2 Hg2 Hsg2 Hd2 Ht2) in Hcr.
    rewrite (bind_threw _ _ _ (NewError (unable_to_create_message branchName)))
      by now rewrite Hcr.
    rewrite Hcr. reflexivity.
  - exists "Unable to create branch "%string,
      " after cleaning up conflicting references."%string.
    reflexivity.
Qed.

Lemma creation_attempt_carries (baseSha : option string) (attempt : Z) (w : W) :
  Forall (creates_carry baseSha)
    (trace (creation_attempt owner repo octokit branchName baseSha attempt w)).
Proof.
  unfold creation_attempt, call_createRef, call_getRef, call_deleteRef,
    request, bind, ret, throw; simpl;
  repeat (match goal with
          | |- context [match ?op with (_, _) => _ end] =>
              destruct op as [[?|?] ?] eqn:?
          | |- context [if ?b then _ else _] => destruct b eqn:?
          end; simpl);
  repeat constructor.
Qed.

Lemma verification_attempt_carries (hash : option string) (attempt : Z) (w : W) :
  Forall (creates_carry hash)
    (trace (verification_attempt elapse owner repo octokit branchName attempt w)).
Proof.
  destruct (verification_attempt_cases elapse owner repo octokit branchName
              attempt w)
    as [(d & w' & _ & ->) | [(e & w' & _ & _ & _ & ->) | (e & w' & _ & _ & ->)]];
    repeat constructor.
Qed.

Lemma creation_attempt_reads (baseSha : option string) (attempt : Z) (w : W) :
  Forall (reads_only (branchRef branchName))
    (trace (creation_attempt owner repo octokit branchName baseSha attempt w)).
Proof.
  unfold creation_attempt, call_createRef, call_getRef, call_deleteRef,
    request, bind, ret, throw; simpl;
  repeat (match goal with
          | |- context [match ?op with (_, _) => _ end] =>
              destruct op as [[?|?] ?] eqn:?
          | |- context [if ?b then _ else _] => destruct b eqn:?
          end; simpl);
  repeat constructor.
Qed.

Lemma verification_attempt_reads (attempt : Z) (w : W) :
  Forall (reads_only (branchRef branchName))
    (trace (verification_attempt elapse owner repo octokit branchName attempt w)).
Proof.
  destruct (verification_attempt_cases elapse owner repo octokit branchName
              attempt w)
    as [(d & w' & _ & ->) | [(e & w' & _ & _ & _ & ->) | (e & w' & _ & _ & ->)]];
    repeat constructor.
Qed.

Lemma no_read_of_another_ref (ref other : string) (tr : list Event) :
  Forall (reads_only ref) tr ->
  ref <> other ->
  count (is_getRef_of other) tr = 0%nat.
Proof.
  intros Hall Hne. induction Hall as [|[c o] tr Hc _ IH]; [reflexivity|].
  unfold count in *. simpl.
  replace (is_getRef_of other (c, o)) with false; [exact IH|].
  destruct c; try reflexivity.
  unfold reads_only in Hc. simpl in Hc. subst ref0.
  unfold is_getRef_of. simpl. symmetry. now apply String.eqb_neq.
Qed.

Lemma short_ref_injective (name1 name2 : string) :
  branchRef name1 = baseRef name2 -> name1 = name2.
Proof.
  unfold branchRef, baseRef, SHORT_REF_PREFIX. simpl. now intros [= ->].
Qed.

(** The base is read once, and its hash is what every createRef call of
    the invocation carries: the first attempt and the retry after a
    cleanup create the branch at the same hash, the one under
    [object.sha] of the reply when that is a non-empty string, the one
    under [sha] otherwise.  After the read of the base, which is the
    second call, every read is a read of the branch: with a base other
    than the branch, the base is read exactly once. *)
Theorem every_creation_carries_the_base_hash
    (w w1 w2 : W) (e : RequestError) (base : RefData) :
  getRef octokit owner repo (branchRef branchName) w = (Rejected e, w1) ->
  status_is e 404 = true ->
  getRef octokit owner repo (baseRef baseBranch) w1 = (Fulfilled base, w2) ->
  let r :=
    ensureUpdateBranchExists elapse owner repo (Some octokit) branchName
      baseBranch w in
  Forall (creates_carry (resolveRefSha base)) (trace r)
  /\ (forall hash,
        object_sha base = Some hash -> hash <> ""%string ->
        resolveRefSha base = Some hash)
  /\ (truthy (object_sha base) = false -> resolveRefSha base = sha base)
  /\ (exists rest,
        trace r
        = (GetRef owner repo (branchRef branchName), Some e)
            :: (GetRef owner repo (baseRef baseBranch), None)
            :: rest
        /\ Forall (reads_only (branchRef branchName)) rest)
  /\ (baseBranch <> branchName ->
      count (is_getRef_of (baseRef baseBranch)) (trace r) = 1%nat).
Proof.
  intros Hg Hs Hb r.
  assert (Hr : r = preceded
      [(GetRef owner repo (branchRef branchName), Some e);
       (GetRef owner repo (baseRef baseBranch), None)]
      (bind (createBranchWithCleanup owner repo octokit branchName
               (resolveRefSha base))
            (fun _ => verification elapse owner repo octokit branchName) w2)).
  { unfold r. simpl.
    rewrite (ensure_absent _ _ _ _ _ _ _ _ _ Hg Hs).
    rewrite (base_readable _ _ _ _ _ _ _ _ _ Hb).
    now rewrite preceded_preceded. }
  assert (Hrest :
    Forall (reads_only (branchRef branchName))
      (trace (bind (createBranchWithCleanup owner repo octokit branchName
                      (resolveRefSha base))
                   (fun _ => verification elapse owner repo octokit branchName)
                   w2))).
  { apply (bind_compositional (fun tr => Forall (reads_only _) tr)).
    - apply compositional_Forall.
    - unfold createBranchWithCleanup.
      apply (for_attempts_compositional (fun tr => Forall (reads_only _) tr)).
      + apply compositional_Forall.
      + intros. apply creation_attempt_reads.
      + intros. constructor.
    - intros _ w3. unfold verification, verification_from.
      apply (for_attempts_compositional (fun tr => Forall (reads_only _) tr)).
      + apply compositional_Forall.
      + intros. apply verification_attempt_reads.
      + intros. constructor. }
  rewrite Hr. unfold preceded. cbn [trace app].
  split; [|split; [|split; [|split]]].
  - repeat (constructor; [exact I|]).
    apply (bind_compositional (fun tr => Forall (creates_carry _) tr)).
    + apply compositional_Forall.
    + unfold createBranchWithCleanup.
      apply (for_attempts_compositional (fun tr => Forall (creates_carry _) tr)).
      * apply compositional_Forall.
      * intros. apply creation_attempt_carries.
      * intros. constructor.
    + intros _ w3. unfold verification, verification_from.
      apply (for_attempts_compositional (fun tr => Forall (creates_carry _) tr)).
      * apply compositional_Forall.
      * intros. apply verification_attempt_carries.
      * intros. constructor.
  - intros hash Hobj Hne. unfold resolveRefSha, truthy. rewrite Hobj.
    apply String.eqb_neq in Hne. now rewrite Hne.
  - intros Hfalsy. unfold resolveRefSha. now rewrite Hfalsy.
  - eexists. split; [reflexivity | exact Hrest].
  - intros Hne.
    assert (Hrefs : branchRef branchName <> baseRef baseBranch).
    { intros Heq. apply Hne. symmetry. now apply short_ref_injective. }
    change (?x :: ?y :: ?l) with ([x; y] ++ l). rewrite count_app.
    rewrite (no_read_of_another_ref _ _ _ Hrest Hrefs).
    assert (Hfirst :
      is_getRef_of (baseRef baseBranch)
        (GetRef owner repo (branchRef branchName), Some e) = false)
      by (unfold is_getRef_of; cbn [fst]; now apply String.eqb_neq).
    assert (Hsecond :
      is_getRef_of (baseRef baseBranch)
        (GetRef owner repo (baseRef baseBranch), @None RequestError) = true)
      by (unfold is_getRef_of; cbn [fst]; apply String.eqb_refl).
    unfold count. cbn [filter]. rewrite Hfirst, Hsecond. reflexivity.
Qed.

(** The time a branch takes to become readable.  When the function has
    reached its verification loop and the reads of the branch report 404
    on the first n attempts, n from 0 to 6, and succeed on the next one,
    the function returns [true] after n + 1 verification reads, having
    waited 500 * (2^n - 1) ms in all. *)
Theorem waiting_time_until_branch_is_readable
    (n : nat) (w w1 w2 wn w' : W) (e : RequestError) (base data : RefData)
    (missed : list RequestError) :
  (n <= 6)%nat ->
  getRef octokit owner repo (branchRef branchName) w = (Rejected e, w1) ->
  status_is e 404 = true ->
  getRef octokit owner repo (baseRef baseBranch) w1 = (Fulfilled base, w2) ->
  let creation :=
    createBranchWithCleanup owner repo octokit branchName (resolveRefSha base) w2 in
  completion creation = Returned tt ->
  missed_reads elapse owner repo octokit branchName n 0 (world creation)
  = Some (missed, wn) ->
  getRef octokit owner repo (branchRef branchName) wn = (Fulfilled data, w') ->
  let r :=
    ensureUpdateBranchExists elapse owner repo (Some octokit) branchName
      baseBranch w in
  completion r = Returned true
  /\ world r = w'
  /\ trace r
     = ((GetRef owner repo (branchRef branchName), Some e)
          :: (GetRef owner repo (baseRef baseBranch), None)
          :: trace creation)
       ++ backoff_schedule owner repo branchName 0 missed
       ++ [(GetRef owner repo (branchRef branchName), None)]
  /\ count is_getRef
       (backoff_schedule owner repo branchName 0 missed
        ++ [(GetRef owner repo (branchRef branchName), None)]) = S n
  /\ total_delay (trace r) = 500 * (2 ^ Z.of_nat n - 1).
Proof.
  intros Hn Hg Hs Hb creation Hc Hm Hv r.
  assert (Hr : r = preceded
      (((GetRef owner repo (branchRef branchName), Some e)
          :: (GetRef owner repo (baseRef baseBranch), None)
          :: trace creation)
       ++ backoff_schedule owner repo branchName 0 missed)
      {| completion := Returned true;
         world := w';
         trace := [(GetRef owner repo (branchRef branchName), None)] |}).
  { unfold r. rewrite (reaches_verification _ _ _ _ _ _ _ _ _ _ _ Hg Hs Hb Hc).
    unfold verification, MAX_VERIFICATION_ATTEMPTS.
    replace (Z.to_nat 7) with (n + S (6 - n))%nat by lia.
    rewrite (verification_misses elapse owner repo octokit branchName
               _ _ _ _ _ _ Hm)
      by (unfold MAX_VERIFICATION_ATTEMPTS; lia).
    rewrite (verification_read_succeeds _ _ _ _ _ _ _ _ _ _ Hv).
    now rewrite preceded_preceded. }
  pose proof (missed_reads_length _ _ _ _ _ _ _ _ _ _ Hm) as Hlen.
  assert (Hquiet : count is_setTimeout (trace creation) = 0%nat)
    by apply createBranchWithCleanup_counts.
  rewrite Hr. unfold preceded. cbn [completion world trace].
  split; [reflexivity|]. split; [reflexivity|].
  split; [now rewrite <- app_assoc|]. split.
  - rewrite count_app, count_getRef_backoff_schedule, Hlen.
    unfold count. simpl. lia.
  - rewrite !total_delay_app.
    cbn [total_delay].
    rewrite (total_delay_no_setTimeout _ Hquiet).
    rewrite total_delay_backoff_schedule by lia.
    rewrite Hlen. unfold VERIFICATION_BASE_DELAY_MS.
    change (2 ^ 0) with 1. rewrite (Z.add_0_l (Z.of_nat n)). lia.
Qed.

End Paths.

(** ** The other paths at work *)

Lemma returns_only_after_successful_read_witness :
  let r := Mock.run
    (Mock.mocks [Rejected Mock.createNotFoundError; Mock.withSha "base-sha";
                 Mock.withSha "existing-sha"; Mock.withSha "existing-sha"]
                [Rejected Mock.conflictError]) in
  completion r = Returned true
  /\ exists before,
      trace r = before ++ [(GetRef "owner" "repo" "heads/test-branch", None)].
Proof.
  intros r.
  destruct (returns_only_after_successful_read Mock.elapse "owner" "repo"
              (Some Mock.octokitMock) "test-branch" "main"
              (Mock.mocks [Rejected Mock.createNotFoundError;
                           Mock.withSha "base-sha";
                           Mock.withSha "existing-sha";
                           Mock.withSha "existing-sha"]
                          [Rejected Mock.conflictError])
              true eq_refl) as [_ Hlast].
  split; [reflexivity | exact Hlast].
Defined.

Lemma rethrown_error_is_the_last_reply_witness :
  let r := Mock.run
    (Mock.mocks [Rejected Mock.createNotFoundError; Mock.withSha "base-sha"]
                [Rejected Mock.serverError]) in
  exists before c,
    trace r = before ++ [(c, Some Mock.serverError)]
    /\ rethrown_from "owner" "repo" "test-branch" "main" c Mock.serverError.
Proof.
  intros r.
  exact (rethrown_error_is_the_last_reply Mock.elapse "owner" "repo"
           (Some Mock.octokitMock) "test-branch" "main"
           (Mock.mocks [Rejected Mock.createNotFoundError;
                        Mock.withSha "base-sha"]
                       [Rejected Mock.serverError])
           Mock.serverError eq_refl).
Defined.

Lemma built_errors_witness :
  let r := Mock.run
    (Mock.mocks_missing [Rejected Mock.createNotFoundError; Mock.withSha "base-sha"]
                        []) in
  exists msg,
    completion r = Threw (NewError msg)
    /\ msg = not_accessible_message "test-branch"
    /\ includes "test-branch" msg.
Proof.
  intros r.
  exists (not_accessible_message "test-branch").
  destruct (built_errors Mock.elapse "owner" "repo"
              (Some Mock.octokitMock) "test-branch" "main"
              (Mock.mocks_missing
                 [Rejected Mock.createNotFoundError; Mock.withSha "base-sha"] [])
              (not_accessible_message "test-branch") eq_refl)
    as [[Habs _] | (_ & _ & Hname)]; [discriminate Habs|].
  repeat split. exact Hname.
Defined.

Lemma creation_only_after_missing_branch_witness :
  let r := Mock.run
    (Mock.mocks [Rejected Mock.createNotFoundError; Mock.withSha "base-sha";
                 Mock.withSha "new-branch-sha"]
                [Fulfilled tt]) in
  exists rest,
    trace r
    = (GetRef "owner" "repo" "heads/test-branch", Some Mock.createNotFoundError)
        :: (GetRef "owner" "repo" "heads/main", None)
        :: rest.
Proof.
  intros r.
  destruct (creation_only_after_missing_branch Mock.elapse "owner" "repo"
              (Some Mock.octokitMock) "test-branch" "main"
              (Mock.mocks [Rejected Mock.createNotFoundError;
                           Mock.withSha "base-sha";
                           Mock.withSha "new-branch-sha"]
                          [Fulfilled tt])
              ltac:(vm_compute; lia))
    as (octokit & e & w1 & base & w2 & rest & Hclient & Hg & _ & _ & Htrace).
  injection Hclient as <-. injection Hg as <- _.
  exists rest. exact Htrace.
Defined.

Lemma existence_check_error_is_passed_on_witness :
  let r := Mock.run (Mock.mocks [Rejected Mock.serverError] []) in
  completion r = Threw (Rethrown Mock.serverError)
  /\ trace r = [(GetRef "owner" "repo" "heads/test-branch", Some Mock.serverError)].
Proof.
  intros r. unfold r, Mock.run.
  rewrite (existence_check_error_is_passed_on Mock.elapse "owner" "repo"
             Mock.octokitMock "test-branch" "main"
             (Mock.mocks [Rejected Mock.serverError] []) _ _ eq_refl eq_refl).
  split; reflexivity.
Defined.




Lemma creation_gives_up_after_two_stale_conflicts_witness :
  let r := Mock.run
    (Mock.mocks [Rejected Mock.createNotFoundError; Mock.withSha "base-sha";
                 Rejected Mock.createNotFoundError;
                 Rejected Mock.createNotFoundError]
                [Rejected Mock.conflictError; Rejected Mock.conflictError]) in
  completion r =
    Threw (NewError
      "Unable to create branch test-branch after cleaning up conflicting references.")
  /\ count is_getRef (trace r) = 4%nat.
Proof.
  intros r. unfold r, Mock.run.
  rewrite (proj1 (creation_gives_up_after_two_stale_conflicts Mock.elapse
             "owner" "repo" Mock.octokitMock "test-branch" "main"
             (Mock.mocks [Rejected Mock.createNotFoundError;
                          Mock.withSha "base-sha";
                          Rejected Mock.createNotFoundError;
                          Rejected Mock.createNotFoundError]
                         [Rejected Mock.conflictError;
                          Rejected Mock.conflictError])
             _ _ _ _ _ _ _ _ _ _ _ _ _ _ _ _
             eq_refl eq_refl eq_refl eq_refl eq_refl eq_refl eq_refl eq_refl
             eq_refl eq_refl eq_refl eq_refl eq_refl eq_refl eq_refl)).
  split; reflexivity.
Defined.

Lemma every_creation_carries_the_base_hash_witness :
  let r := Mock.run
    (Mock.mocks [Rejected Mock.createNotFoundError; Mock.withSha "base-sha";
                 Rejected Mock.createNotFoundError; Mock.withSha "new-branch-sha"]
                [Rejected Mock.conflictError; Fulfilled tt]) in
  count is_createRef (trace r) = 2%nat
  /\ Forall (creates_carry (Some "base-sha"%string)) (trace r)
  /\ count (is_getRef_of "heads/main") (trace r) = 1%nat.
Proof.
  intros r. split; [reflexivity|].
  destruct (every_creation_carries_the_base_hash Mock.elapse "owner" "repo"
              Mock.octokitMock "test-branch" "main"
              (Mock.mocks [Rejected Mock.createNotFoundError;
                           Mock.withSha "base-sha";
                           Rejected Mock.createNotFoundError;
                           Mock.withSha "new-branch-sha"]
                          [Rejected Mock.conflictError; Fulfilled tt])
              _ _ _ {| object_sha := Some "base-sha"%string; sha := None |}
              eq_refl eq_refl eq_refl)
    as (Hcarry & _ & _ & _ & Honce).
  split; [exact Hcarry|].
  apply Honce. discriminate.
Defined.

Lemma waiting_time_until_branch_is_readable_witness :
  let missing := Rejected Mock.createNotFoundError in
  let r := Mock.run
    (Mock.mocks [missing; Mock.withSha "base-sha";
                 missing; missing; missing; Mock.withSha "new-branch-sha"]
                [Fulfilled tt]) in
  completion r = Returned true /\ total_delay (trace r) = 3500.
Proof.
  intros missing r.
  destruct (waiting_time_until_branch_is_readable Mock.elapse "owner" "repo"
              Mock.octokitMock "test-branch" "main" 3
              (Mock.mocks [missing; Mock.withSha "base-sha";
                           missing; missing; missing;
                           Mock.withSha "new-branch-sha"]
                          [Fulfilled tt])
              _ _ _ _ _ _ _ _
              ltac:(lia) eq_refl eq_refl eq_refl eq_refl eq_refl eq_refl)
    as (Hdone & _ & _ & _ & Hdelay).
  split; [exact Hdone | exact Hdelay].
Defined.

(** On the run that never finds the branch, the six waits are those of
    the whole schedule, each after a missed read. *)
Example waits_on_the_exhausted_run :
  let r := Mock.run
    (Mock.mocks_missing [Rejected Mock.createNotFoundError; Mock.withSha "base-sha"]
                        []) in
  count is_setTimeout (trace r) = 6%nat
  /\ count is_getRef (trace r) = 9%nat.
Proof. vm_compute. auto. Qed.
